(** * caprini: waveform capture for the DS4000 oscilloscope family

    A shallow embedding of [caprini/waveform.py] and
    [caprini/ds4024_scpi.py], and the properties of the capture,
    decoding and serialisation code that the specification states.

    Conventions of the embedding.
    - Python values that the program stores without inspecting them
      (settings mappings, identity string, version) live in [pyval];
      a [dict] is a finite map keyed by strings.
    - A Python float is [PyNum], a Python int is [PyInt].  Floats are
      what the preamble decoder produces ([map(float, ...)]) and what a
      document written by [to_jsons] holds for them; they are modelled by
      the rationals [Q], so rounding and the non-finite floats are outside
      the model.  What Python and numpy do when an operand is not a
      float is left to the interface [Numerics], about which nothing is
      assumed.  Strings are sequences of 8-bit characters.
    - An exception is the [Raise] case of [result]; code that talks to
      the instrument runs in the state-and-error monad [scpi], which
      threads the instrument and the journal of issued commands. *)

From stdpp Require Import base option list strings gmap fin_maps.
From Stdlib Require Import ZArith QArith Strings.Byte Ascii String.

#[local] Set Warnings "-register-all,-clear-no-such-hyp".
#[local] Open Scope string_scope.

(** ** Exceptions and results *)

Inductive pyerror :=
| ValueError
| KeyError (key : string)
| TypeError
| NameError (name : string)
| ZeroDivisionError
| OverflowError
| AttributeError
| PyException (msg : string)
| TransportError (msg : string).

Inductive result (A : Type) :=
| Ok (a : A)
| Raise (e : pyerror).
Arguments Ok {A} a.
Arguments Raise {A} e.

#[global] Instance result_ret : MRet result := @Ok.
#[global] Instance result_bind : MBind result :=
  λ A B f m, match m with Ok a => f a | Raise e => Raise e end.
#[global] Instance result_fmap : FMap result :=
  λ A B f m, match m with Ok a => Ok (f a) | Raise e => Raise e end.

(** The exception a computation ends with, if any. *)
Definition error_of {A} (r : result A) : option pyerror :=
  match r with Ok _ => None | Raise e => Some e end.

(** ** Python values *)

Inductive pyval :=
| PyInt (z : Z)
| PyNum (q : Q)
| PyStr (s : string)
| PyDict (d : gmap string pyval).

(** [d[k]]: subscripting a dict raises [KeyError] on a missing key. *)
Definition getitem {V} (d : gmap string V) (k : string) : result V :=
  match d !! k with
  | Some v => Ok v
  | None => Raise (KeyError k)
  end.

(** [v != 0]: a number is compared by value, anything else differs from 0. *)
Definition py_ne_zero (v : pyval) : bool :=
  match v with
  | PyInt z => negb (z =? 0)%Z
  | PyNum q => negb (Qeq_bool q 0)
  | _ => true
  end.

(** Arithmetic with an operand that is not a float.  Python converts an
    int that meets a float, rounding it, and raises [OverflowError] when
    it is too large; numpy, given a scalar that is not a float beside an
    array, picks the type of the result by rules that differ between its
    versions, and may wrap around, raise, or work element by element.
    These are taken as they come:
    - [float_of_int z] is the conversion of the int [z];
    - [np_time x0 dx n] is [x0 + dx*np.arange(n)];
    - [np_voltage y0 readings dy] is [(y0 + readings) * dy] for the
      unsigned 8-bit array [readings];
    the last two are only used when an operand is not a float. *)
Class Numerics := {
  float_of_int : Z → result Q;
  np_time : pyval → pyval → nat → result (list Q);
  np_voltage : pyval → list byte → pyval → result (list Q)
}.

Section Arithmetic.
Context {numerics : Numerics}.

(** The float that stands for a number in float arithmetic. *)
Definition to_float (v : pyval) : result Q :=
  match v with
  | PyNum q => Ok q
  | PyInt z => float_of_int z
  | _ => Raise TypeError
  end.

(** [a - b]: an int when both are ints, else a float; [TypeError] when
    one is no number. *)
Definition py_sub (a b : pyval) : result pyval :=
  match a, b with
  | PyInt x, PyInt y => Ok (PyInt (x - y))
  | PyNum x, PyNum y => Ok (PyNum (x - y))
  | PyInt _, PyNum _ | PyNum _, PyInt _ =>
      x ← to_float a; y ← to_float b; Ok (PyNum (x - y))
  | _, _ => Raise TypeError
  end.

(** [1.0 / d]: Python raises on a zero divisor. *)
Definition py_inv (d : pyval) : result Q :=
  x ← to_float d;
  if Qeq_bool x 0 then Raise ZeroDivisionError else Ok (1 / x)%Q.

End Arithmetic.

(** ** Sequences *)

(** Normalisation of one bound of a slice over a sequence of [len] items. *)
Definition slice_index (len : nat) (i : Z) : nat :=
  if (i <? 0)%Z then Z.to_nat (Z.max 0 (i + Z.of_nat len))
  else Nat.min (Z.to_nat i) len.

(** [l[start:stop]] *)
Definition py_slice {A} (l : list A) (start stop : Z) : list A :=
  let a := slice_index (List.length l) start in
  let b := slice_index (List.length l) stop in
  take (b - a) (drop a l).

(** Value of an unsigned 8-bit sample as a float. *)
Definition byte_to_Q (b : byte) : Q := inject_Z (Z.of_N (Byte.to_N b)).

(** [np.arange(n)] *)
Definition arange (n : nat) : list Q := (λ i, inject_Z (Z.of_nat i)) <$> seq 0 n.

(** [x0 + dx*np.arange(n)] *)
Definition time_axis {numerics : Numerics} (x0 dx : pyval) (n : nat)
    : result (list Q) :=
  match x0, dx with
  | PyNum x0, PyNum dx => Ok ((λ i, x0 + dx * i)%Q <$> arange n)
  | _, _ => np_time x0 dx n
  end.

(** [(y0 + readings) * dy] *)
Definition voltages {numerics : Numerics} (y0 : pyval) (readings : list byte)
    (dy : pyval) : result (list Q) :=
  match y0, dy with
  | PyNum y0, PyNum dy => Ok ((λ s, (y0 + byte_to_Q s) * dy)%Q <$> readings)
  | _, _ => np_voltage y0 readings dy
  end.

(** ** The [base64] module of the Python library

    The standard alphabet of RFC 4648 with [=] padding.  Decoding is
    what [binascii.a2b_base64] does when [validate] is off: characters
    outside the alphabet are skipped, and the input must end on a
    completed or padded quantum. *)

Module base64.

#[local] Open Scope N_scope.

Definition byte_of_N (n : N) : byte := default x00 (Byte.of_N n).

(** Character for a 6-bit group. *)
Definition table_b2a (n : N) : byte :=
  byte_of_N (if n <? 26 then n + 65          (* A..Z *)
             else if n <? 52 then n + 71     (* a..z *)
             else if n <? 62 then n - 4      (* 0..9 *)
             else if n =? 62 then 43         (* +    *)
             else 47).                       (* /    *)

(** 6-bit group of a character of the alphabet. *)
Definition table_a2b (c : byte) : option N :=
  let v := Byte.to_N c in
  if (65 <=? v) && (v <=? 90) then Some (v - 65)
  else if (97 <=? v) && (v <=? 122) then Some (v - 71)
  else if (48 <=? v) && (v <=? 57) then Some (v + 4)
  else if v =? 43 then Some 62
  else if v =? 47 then Some 63
  else None.

Definition pad : byte := x3d.

Fixpoint b64encode (s : list byte) : list byte :=
  match s with
  | [] => []
  | [a] =>
      let a := Byte.to_N a in
      [table_b2a (a / 4); table_b2a (a mod 4 * 16); pad; pad]
  | [a; b] =>
      let a := Byte.to_N a in let b := Byte.to_N b in
      [table_b2a (a / 4); table_b2a (a mod 4 * 16 + b / 16);
       table_b2a (b mod 16 * 4); pad]
  | a :: b :: c :: rest =>
      let a := Byte.to_N a in let b := Byte.to_N b in let c := Byte.to_N c in
      table_b2a (a / 4) :: table_b2a (a mod 4 * 16 + b / 16)
      :: table_b2a (b mod 16 * 4 + c / 64) :: table_b2a (c mod 64)
      :: b64encode rest
  end.

(** The decoder's loop: [quad_pos] counts the characters of the current
    quantum, [leftchar] holds its bits not yet written, [pads] the
    padding characters seen since the last data character. *)
Fixpoint a2b_loop (data : list byte) (quad_pos leftchar pads : N)
    (out : list byte) : result (list byte) :=
  match data with
  | [] =>
      if quad_pos =? 0 then Ok out else Raise ValueError
  | ch :: data =>
      if Byte.eqb ch pad then
        if 2 <=? quad_pos then
          if 4 <=? quad_pos + (pads + 1) then Ok out
          else a2b_loop data quad_pos leftchar (pads + 1) out
        else a2b_loop data quad_pos leftchar pads out
      else
        match table_a2b ch with
        | None => a2b_loop data quad_pos leftchar pads out
        | Some this_ch =>
            if quad_pos =? 0 then
              a2b_loop data 1 this_ch 0 out
            else if quad_pos =? 1 then
              a2b_loop data 2 (this_ch mod 16) 0
                (out ++ [byte_of_N (leftchar * 4 + this_ch / 16)])%list
            else if quad_pos =? 2 then
              a2b_loop data 3 (this_ch mod 4) 0
                (out ++ [byte_of_N (leftchar * 16 + this_ch / 4)])%list
            else
              a2b_loop data 0 0 0
                (out ++ [byte_of_N (leftchar * 64 + this_ch)])%list
        end
  end.

Definition a2b_base64 (data : list byte) : result (list byte) :=
  a2b_loop data 0 0 0 [].

Definition is_ascii (c : byte) : bool := Byte.to_N c <? 128.

(** [base64.b64decode(s)]: a [str] argument must be ASCII. *)
Definition b64decode (s : pyval) : result (list byte) :=
  match s with
  | PyStr s =>
      let data := list_byte_of_string s in
      if forallb is_ascii data then a2b_base64 data else Raise ValueError
  | _ => Raise TypeError
  end.

End base64.

(** ** The [json] module of the Python library

    The text of a document is opaque to the program, which only passes it
    from [json.dumps] to [json.loads]; the two are taken as an interface,
    and [JsonCodecOk] is the contract that loading a dumped value gives the
    value back. *)

Class JsonCodec (doc : Type) := {
  json_dumps : pyval → result doc;
  json_loads : doc → result pyval
}.

Class JsonCodecOk {doc} (codec : JsonCodec doc) : Prop := {
  json_loads_dumps : ∀ v : pyval, ∃ s : doc, json_dumps v = Ok s ∧ json_loads s = Ok v
}.

(** ** waveform.py: class Waveform *)

Module Waveform.

Record obj := {
  version : pyval;
  preamble : gmap string pyval;
  rawbuf : list byte;
  channel_settings : pyval;
  idn_line : pyval;
  trigger_settings : pyval;
  readings : list byte;
  Fs : Q;
  t : list Q;
  y : list Q
}.

(** [Waveform.__init__]; [version] defaults to 1 at the call sites. *)
Definition __init__ {numerics : Numerics} (preamble : gmap string pyval) (rawbuf : list byte)
    (channel_settings idn_line trigger_settings version : pyval) : result obj :=
  fmt ← getitem preamble "format";
  if py_ne_zero fmt then Raise ValueError else
  (* Ignore the header and trailing newline *)
  let readings := py_slice rawbuf 11 (-1) in
  dx ← getitem preamble "x_step";
  x0 ← getitem preamble "x_origin";
  dy ← getitem preamble "y_step";
  yo ← getitem preamble "y_origin";
  yr ← getitem preamble "y_reference";
  y0 ← py_sub yo yr;
  Fs ← py_inv dx;
  t ← time_axis x0 dx (List.length readings);
  y ← voltages y0 readings dy;
  Ok {| version := version; preamble := preamble; rawbuf := rawbuf;
        channel_settings := channel_settings; idn_line := idn_line;
        trigger_settings := trigger_settings;
        readings := readings; Fs := Fs; t := t; y := y |}.

(** The object that [__init__] leaves behind when the scaling entries
    of the preamble are the floats [dx], [x0], [dy], [yo] and [yr]. *)
Definition built (preamble : gmap string pyval) (rawbuf : list byte)
    (channel_settings idn_line trigger_settings version : pyval)
    (dx x0 dy yo yr : Q) : obj :=
  let readings := py_slice rawbuf 11 (-1) in
  {| version := version; preamble := preamble; rawbuf := rawbuf;
     channel_settings := channel_settings; idn_line := idn_line;
     trigger_settings := trigger_settings;
     readings := readings;
     Fs := (1 / dx)%Q;
     t := (λ i, x0 + dx * i)%Q <$> arange (List.length readings);
     y := (λ s, (yo - yr + byte_to_Q s) * dy)%Q <$> readings |}.

(** [Waveform._json_dict] *)
Definition _json_dict (self : obj) : gmap string pyval :=
  <["version" := version self]> (
  <["idn_line" := idn_line self]> (
  <["channel_settings" := channel_settings self]> (
  <["trigger_settings" := trigger_settings self]> (
  <["preamble" := PyDict (preamble self)]> (
  <["buf_b64" := PyStr (string_of_list_byte (base64.b64encode (rawbuf self)))]> ∅))))).

(** Names of the keyword parameters of [__init__] other than [rawbuf],
    which the decoder always supplies itself. *)
Definition init_params : gset string :=
  {[ "preamble"; "channel_settings"; "idn_line"; "trigger_settings"; "version" ]}.

(** The call of [cls] with the entries of [dp] as keywords, once
    [dp['rawbuf'] = rawbuf] is set: a keyword that names
    no parameter, or a parameter without default that no keyword gives,
    is a [TypeError]; a [preamble] that is no mapping fails at its first
    subscript. *)
Definition call_init {numerics : Numerics} (dp : gmap string pyval) (rawbuf : list byte) : result obj :=
  let kw := delete "rawbuf" dp in
  if bool_decide (dom kw ⊆ init_params) then
    match kw !! "preamble", kw !! "channel_settings",
          kw !! "idn_line", kw !! "trigger_settings" with
    | Some p, Some cs, Some idn, Some ts =>
        match p with
        | PyDict p => __init__ p rawbuf cs idn ts (default (PyInt 1) (kw !! "version"))
        | _ => Raise TypeError
        end
    | _, _, _, _ => Raise TypeError
    end
  else Raise TypeError.

(** [Waveform._from_json_dict] *)
Definition _from_json_dict {numerics : Numerics} (d : pyval) : result obj :=
  match d with
  | PyDict d =>
      b64 ← getitem d "buf_b64";
      rawbuf ← base64.b64decode b64;
      (* Make a copy to tweak around: *)
      let dp := d in
      let dp := delete "buf_b64" dp in
      call_init dp rawbuf
  | _ => Raise TypeError
  end.

Section Json.
Context {numerics : Numerics} {doc : Type} `{JsonCodec doc}.

(** [Waveform.to_jsons] *)
Definition to_jsons (self : obj) : result doc :=
  json_dumps (PyDict (_json_dict self)).

(** [Waveform.from_jsons] *)
Definition from_jsons (s : doc) : result obj :=
  d ← json_loads s; _from_json_dict d.
End Json.

Definition with_version (v : pyval) (self : obj) : obj :=
  {| version := v; preamble := preamble self; rawbuf := rawbuf self;
     channel_settings := channel_settings self; idn_line := idn_line self;
     trigger_settings := trigger_settings self; readings := readings self;
     Fs := Fs self; t := t self; y := y self |}.

End Waveform.

(** ** waveform.py: class WaveformBundle *)

Module WaveformBundle.

Record obj := {
  version : pyval;
  channel_names : pyval;
  waveforms : gmap string Waveform.obj;
  title : pyval
}.

(** [WaveformBundle.__init__] *)
Definition __init__ (title channel_names : pyval)
    (waveforms : gmap string Waveform.obj) (version : pyval) : obj :=
  {| version := version; channel_names := channel_names;
     waveforms := waveforms; title := title |}.

Definition init_params : gset string := {[ "title"; "channel_names"; "version" ]}.

(** The loop of [_from_json_dict] over [dp["waveforms"].items()]; the
    entries are visited in the order of the finite map, which decides
    only which error is reported when several entries are malformed. *)
Definition decode_waveforms {numerics : Numerics} (wd : gmap string pyval) : result (gmap string Waveform.obj) :=
  list_to_map <$>
    mapM (M := result) (λ kv, pair kv.1 <$> Waveform._from_json_dict kv.2) (map_to_list wd).

(** [WaveformBundle._from_json_dict] *)
Definition _from_json_dict {numerics : Numerics} (d : pyval) : result obj :=
  match d with
  | PyDict dp =>
      wd ← getitem dp "waveforms";
      match wd with
      | PyDict wd =>
          waveforms ← decode_waveforms wd;
          let kw := delete "waveforms" dp in
          if bool_decide (dom kw ⊆ init_params) then
            match kw !! "title", kw !! "channel_names" with
            | Some title, Some channel_names =>
                Ok (__init__ title channel_names waveforms
                      (default (PyInt 1) (kw !! "version")))
            | _, _ => Raise TypeError
            end
          else Raise TypeError
      | _ => Raise AttributeError
      end
  | _ => Raise AttributeError
  end.

Section Json.
Context {numerics : Numerics} {doc : Type} `{JsonCodec doc}.

(** [WaveformBundle.from_jsons] *)
Definition from_jsons (s : doc) : result obj :=
  d ← json_loads s; _from_json_dict d.
End Json.

Definition with_version (v : pyval) (self : obj) : obj :=
  {| version := v; channel_names := channel_names self;
     waveforms := waveforms self; title := title self |}.

(** [WaveformBundle._json_dict] *)
Definition _json_dict (self : obj) : gmap string pyval :=
  let d :=
    <["version" := version self]> (
    <["title" := title self]> (
    <["channel_names" := channel_names self]> ∅)) in
  <["waveforms" := PyDict ((λ v, PyDict (Waveform._json_dict v)) <$> waveforms self)]> d.

Section JsonDump.
Context {doc : Type} `{JsonCodec doc}.

(** [WaveformBundle.to_jsons] *)
Definition to_jsons (self : obj) : result doc :=
  json_dumps (PyDict (_json_dict self)).
End JsonDump.

End WaveformBundle.

(** ** Strings *)

(** Characters that [str.isspace] accepts, among the first 256 code points. *)
Definition is_space (c : ascii) : bool :=
  let n := nat_of_ascii c in
  ((9 <=? n) && (n <=? 13) || (28 <=? n) && (n <=? 32)
   || (n =? 133) || (n =? 160))%nat.

Fixpoint lstrip (s : string) : string :=
  match s with
  | EmptyString => EmptyString
  | String c r => if is_space c then lstrip r else s
  end.

Fixpoint rstrip (s : string) : string :=
  match s with
  | EmptyString => EmptyString
  | String c r =>
      match rstrip r with
      | EmptyString => if is_space c then EmptyString else String c EmptyString
      | r' => String c r'
      end
  end.

(** [s.strip()] *)
Definition strip (s : string) : string := rstrip (lstrip s).

(** The field before the first separator, and the fields after it. *)
Fixpoint split_fields (sep : ascii) (s : string) : string * list string :=
  match s with
  | EmptyString => (EmptyString, [])
  | String c r =>
      let '(f, fs) := split_fields sep r in
      if Ascii.eqb c sep then (EmptyString, f :: fs) else (String c f, fs)
  end.

(** [s.split(sep)] for a separator of one character. *)
Definition split (sep : ascii) (s : string) : list string :=
  let '(f, fs) := split_fields sep s in f :: fs.

(** The builtin [float] applied to a string: the number it denotes, or
    [None] where Python raises [ValueError]. *)
Class Builtins := { float : string → option Q }.

(** ** The instrument link *)

(** What [vxi11.Instrument] offers: each call reaches the instrument,
    which may change state, and either replies or raises. *)
Class Transport (Scope : Type) := {
  instrument_write : string → Scope → result unit * Scope;
  instrument_ask : string → Scope → result string * Scope;
  instrument_ask_raw : list byte → Scope → result (list byte) * Scope
}.

(** What the driver does that can be observed from outside. *)
Inductive event :=
| Wrote (cmd : string)
| Asked (cmd : string)
| AskedRaw (cmd : list byte)
| Warned (msg : string).

Record world (Scope : Type) := World {
  instrument : Scope;
  journal : list event
}.
Arguments World {Scope} instrument journal.
Arguments instrument {Scope} w.
Arguments journal {Scope} w.

Definition scpi (Scope A : Type) : Type := world Scope → result A * world Scope.

#[global] Instance scpi_ret {Scope} : MRet (scpi Scope) := λ A a w, (Ok a, w).
#[global] Instance scpi_bind {Scope} : MBind (scpi Scope) :=
  λ A B f m w,
    match m w with
    | (Ok a, w') => f a w'
    | (Raise e, w') => (Raise e, w')
    end.

Definition lift {Scope A} (r : result A) : scpi Scope A := λ w, (r, w).

(** One call on the link: it is entered in the journal, then answered. *)
Definition perform {Scope A} (e : event) (call : Scope → result A * Scope)
    : scpi Scope A :=
  λ w, let '(r, i) := call (instrument w) in (r, World i (journal w ++ [e])%list).

(** [warnings.warn(msg)]: the call is entered in the journal. *)
Definition warn {Scope} (msg : string) : scpi Scope unit :=
  λ w, (Ok (), World (instrument w) (journal w ++ [Warned msg])%list).

(** Evaluation of a name: [NameError] unless something binds it. *)
Definition load_name (bound : list string) (name : string) : result unit :=
  if bool_decide (name ∈ bound) then Ok () else Raise (NameError name).

(** ** ds4024_scpi.py: class DS4024_SCPI *)

Module DS4024_SCPI.

Inductive ret_type := RET_NONE | RET_LINE | RET_WAVEFORM.

Definition reply (rt : ret_type) : Type :=
  match rt with
  | RET_NONE => unit
  | RET_LINE => string
  | RET_WAVEFORM => list byte
  end.

Definition channel_settings_names : list string :=
  ["BVOL"; "BWL"; "COUP"; "DISP"; "IMP"; "INV";
   "OFFS"; "PEND"; "PROB"; "SCAL"; "TCAL"; "TYPE";
   "UNIT"; "VERN"].

Definition trigger_settings_names : list string :=
  ["STAT"; "COUP"; "HOLD"; "MODE"; "STAT"; "STAT"; "SWE"; "NREJ"].

Definition trigger_subfam_settings : gmap string (list string) :=
  list_to_map [
    ("CAN", ["BAUD"; "BUS"; "FTYP"; "LEV"; "SOUR"; "SPO"; "STYP"; "WHEN"]);
    ("EDGE", ["LEV"; "SLOP"; "SOUR"]);
    ("IIC", ["ADDR"; "AWID"; "CLEV"; "DATA"; "DIR"; "DLEV"; "SCL"; "SDA"; "WHEN"]);
    ("PATT", ["LEV"; "PATT"; "SOUR"]);
    ("PULS", ["LEV"; "LWID"; "SOUR"; "UWID"; "WHEN"]);
    ("RUNT", ["ALEV"; "BLEV"; "POL"; "SOUR"; "WHEN"; "WLOW"; "WUPP"]);
    ("NEDG", ["EDGE"; "IDLE"; "LEV"; "SLOP"; "SOUR"]);
    ("RS232", ["BAUD"; "BUS"; "DATA"; "LEV"; "PAR"; "SOUR"; "STOP"; "WHEN"; "WIDT"]);
    ("SLOP", ["ALEV"; "BLEV"; "SOUR"; "TLOW"; "TUPP"; "WHEN"; "WIND"]);
    ("SPI", ["CLEV"; "CS"; "DATA"; "DLEV"; "MODE"; "SCL";
             "SDA"; "SLEV"; "SLOP"; "TIM"; "WHEN"; "WIDT"]);
    ("USB", ["DMIN"; "DPL"; "MLEV"; "PLEV"; "SPE"; "WHEN"]);
    ("VID", ["LEV"; "LINE"; "MODE"; "POL"; "SOUR"; "STAN"]);
    ("FLEX", ["BAUD"; "LEV"; "SOUR"; "WHEN"])
  ].

(** The source writes these parameter sets as set literals, whose
    iteration order the language leaves open; they are listed as written. *)
Definition calc_subfam_settings : gmap string (list string) :=
  list_to_map [
    ("ADV", ["EXPR"; "INV"; "VAR1"; "VAR2"; "VOFF"; "VSC"]);
    ("ADD", ["INV"; "SA"; "SB"; "VOFF"; "VSC"]);
    ("DIV", ["INV"; "SA"; "SB"; "VOFF"; "VSC"]);
    ("FFT", ["HCEN"; "HOFF"; "HSC"; "HSP"; "SOUR"; "SPL"; "VOFF"; "VSC"; "VSM"; "WIND"]);
    ("LOG", ["ATHR"; "BTHR"; "INV"; "OPER"; "SA"; "SB"; "VOFF"; "VSC"]);
    ("MULT", ["INV"; "SA"; "SB"; "VOFF"; "VSC"]);
    ("SUB", ["INV"; "SA"; "SB"; "VOFF"; "VSC"])
  ].

(** Names bound where [fetch_waveform] builds its warning: the
    parameters, the local [preamble], and what the module imports or
    defines.  No builtin is called [mode]. *)
Definition fetch_waveform_names : list string :=
  ["self"; "channel"; "trigger_settings"; "preamble";
   "warnings"; "vxi11"; "np"; "Waveform"; "WaveformBundle"; "DS4024_SCPI"].

Section Driver.
Context {builtins : Builtins} {numerics : Numerics}.
Context {Scope : Type} {transport : Transport Scope}.

(** [_cmd]: the command line is stripped and sent by the call that
    matches the kind of reply expected. *)
Definition _cmd (cmdline : string) (rt : ret_type) : scpi Scope (reply rt) :=
  let actual_cmdline := strip cmdline in
  match rt return scpi Scope (reply rt) with
  | RET_NONE => perform (Wrote actual_cmdline) (instrument_write actual_cmdline)
  | RET_LINE => perform (Asked actual_cmdline) (instrument_ask actual_cmdline)
  | RET_WAVEFORM =>
      let raw := list_byte_of_string actual_cmdline in
      perform (AskedRaw raw) (instrument_ask_raw raw)
  end.

(** [_idn] *)
Definition _idn : scpi Scope string := _cmd "*IDN?" RET_LINE.

(** One step of unpacking [map(float, fields)]: the next field is
    converted when, and only when, a value is asked for. *)
Definition next_float (fields : list string) : result (Q * list string) :=
  match fields with
  | [] => Raise ValueError          (* not enough values to unpack *)
  | f :: rest =>
      match float f with
      | Some q => Ok (q, rest)
      | None => Raise ValueError    (* could not convert string to float *)
      end
  end.

(** [_parse_preamble] *)
Definition _parse_preamble (preamble : string) : result (gmap string pyval) :=
  let fields := split "," preamble in
  '(fmt, fields) ← next_float fields;
  '(modeno, fields) ← next_float fields;
  '(n_points, fields) ← next_float fields;
  '(n_avgs, fields) ← next_float fields;
  '(xinc, fields) ← next_float fields;
  '(xorig, fields) ← next_float fields;
  '(xref, fields) ← next_float fields;
  '(yinc, fields) ← next_float fields;
  '(yorig, fields) ← next_float fields;
  '(yref, fields) ← next_float fields;
  match fields with
  | _ :: _ => Raise ValueError      (* too many values to unpack *)
  | [] =>
      Ok (<["format" := PyNum fmt]> (
          <["mode" := PyNum modeno]> (
          <["n_points" := PyNum n_points]> (
          <["n_avgs" := PyNum n_avgs]> (
          <["x_step" := PyNum xinc]> (
          <["x_origin" := PyNum xorig]> (
          <["x_reference" := PyNum xref]> (
          <["y_step" := PyNum yinc]> (
          <["y_origin" := PyNum yorig]> (
          <["y_reference" := PyNum yref]> ∅))))))))))
  end.

(** [_fetch_preamble] *)
Definition _fetch_preamble : scpi Scope (gmap string pyval) :=
  preamble_s ← _cmd ":WAV:PRE?" RET_LINE;
  lift (_parse_preamble preamble_s).

(** The loop of [_fetch_settings], with the dictionary built so far. *)
Fixpoint fetch_settings_loop (prefix : string) (settings : list string)
    (result : gmap string string) : scpi Scope (gmap string string) :=
  match settings with
  | [] => mret result
  | s :: settings =>
      r ← _cmd (":" ++ prefix ++ ":" ++ s ++ "?") RET_LINE;
      fetch_settings_loop prefix settings (<[s := r]> result)
  end.

(** [_fetch_settings] *)
Definition _fetch_settings (prefix : string) (settings : list string)
    : scpi Scope (gmap string string) :=
  fetch_settings_loop prefix settings ∅.

(** [_fetch_trigger_settings] *)
Definition _fetch_trigger_settings : scpi Scope (gmap string pyval) :=
  let settings := trigger_settings_names in
  let subfam_settings := trigger_subfam_settings in
  top_level ← _fetch_settings "TRIG" settings;
  subfam ← lift (getitem top_level "MODE");
  _ ← (if bool_decide (subfam ∈ ["EDGE"]) then mret ()
       else warn ("Capturing state of trigger mode " ++ subfam ++ " is untested"));
  names ← lift (getitem subfam_settings subfam);
  sublevel ← _fetch_settings ("TRIG:" ++ subfam) names;
  (* top_level[subfam] = sublevel *)
  mret (<[subfam := PyDict (PyStr <$> sublevel)]> (PyStr <$> top_level)).

(** [_fetch_calc_settings] *)
Definition _fetch_calc_settings : scpi Scope (gmap string pyval) :=
  let settings := ["MODE"] in
  let subfam_settings := calc_subfam_settings in
  top_level ← _fetch_settings "CALC" settings;
  subfam ← lift (getitem top_level "MODE");
  _ ← (if bool_decide (subfam ∈ ["SUB"]) then mret ()
       else warn ("Capturing state of calc mode " ++ subfam ++ " is untested"));
  names ← lift (getitem subfam_settings subfam);
  sublevel ← _fetch_settings ("CALC:" ++ subfam) names;
  mret (<[subfam := PyDict (PyStr <$> sublevel)]> (PyStr <$> top_level)).

(** [_fetch_channel_settings] *)
Definition _fetch_channel_settings (channel : string) : scpi Scope (gmap string pyval) :=
  if String.eqb channel "MATH" then _fetch_calc_settings
  else if String.eqb channel "FFT" then
    lift (Raise (PyException "FFT Settings capture not yet implemented"))
  else
    settings ← _fetch_settings channel channel_settings_names;
    mret (PyStr <$> settings).

(** [_set_channel] *)
Definition _set_channel (channel_name : string) : scpi Scope unit :=
  _cmd (":WAV:SOUR " ++ channel_name) RET_NONE.

(** [fetch_waveform]; [trigger_settings] is [None] unless the caller
    captured the trigger settings beforehand. *)
Definition fetch_waveform (channel : string) (trigger_settings : option pyval)
    : scpi Scope Waveform.obj :=
  _ ← _set_channel channel;
  preamble ← _fetch_preamble;
  mode ← lift (getitem preamble "mode");
  _ ← (if py_ne_zero mode then
         (* the message is formatted first, which evaluates the name
            [mode] of its replacement field *)
         _ ← lift (load_name fetch_waveform_names "mode");
         warn "Preamble mode {mode} unsupported"
       else mret ());
  buf ← _cmd ":WAV:DATA?" RET_WAVEFORM;
  cset ← _fetch_channel_settings channel;
  idn ← _idn;
  trigger_settings ←
    match trigger_settings with
    | None => ts ← _fetch_trigger_settings; mret (PyDict ts)
    | Some ts => mret ts
    end;
  lift (Waveform.__init__ preamble buf (PyDict cset) (PyStr idn) trigger_settings (PyInt 1)).

(** The loop of [fetch_waveforms], with the dictionary built so far. *)
Fixpoint fetch_waveforms_loop (channels : list string) (trigger_settings : pyval)
    (results : gmap string Waveform.obj) : scpi Scope (gmap string Waveform.obj) :=
  match channels with
  | [] => mret results
  | c :: channels =>
      wf_c ← fetch_waveform c (Some trigger_settings);
      fetch_waveforms_loop channels trigger_settings (<[c := wf_c]> results)
  end.

(** [fetch_waveforms] *)
Definition fetch_waveforms (channels : list string)
    : scpi Scope (gmap string Waveform.obj) :=
  trigger_settings ← _fetch_trigger_settings;
  fetch_waveforms_loop channels (PyDict trigger_settings) ∅.

End Driver.

End DS4024_SCPI.

(** [WaveformBundle.collect]: [channel_names] is the dictionary of
    channel names in the order of its keys, which are distinct; [inst]
    is the instrument handle of [DS4024_SCPI]. *)
Definition WaveformBundle_collect {builtins : Builtins} {numerics : Numerics}
    {Scope : Type} {transport : Transport Scope}
    (title : pyval) (channel_names : list (string * pyval))
    : scpi Scope WaveformBundle.obj :=
  waveforms ← DS4024_SCPI.fetch_waveforms (channel_names.*1);
  mret (WaveformBundle.__init__ title (PyDict (list_to_map channel_names))
          waveforms (PyInt 1)).


(** A Waveform object is one that the constructor returned. *)
Definition constructed {numerics : Numerics} (w : Waveform.obj) : Prop :=
  ∃ p raw cs idn ts v, Waveform.__init__ p raw cs idn ts v = Ok w.

(** The journal entries of the queries that [_fetch_settings] sends for
    [settings] under [prefix]. *)
Definition settings_queries (prefix : string) (settings : list string) : list event :=
  (λ s, Asked (strip (":" ++ prefix ++ ":" ++ s ++ "?"))) <$> settings.

(** ** Fixtures

    Concrete stand-ins for the collaborators of the program, on which
    its functions can be run. *)

(** The decimal literals among the strings that [float] accepts:
    an optional sign, digits with an optional point, an optional exponent. *)
Module decimal.

Definition digit_of (c : ascii) : option Z :=
  let n := Z.of_nat (nat_of_ascii c) in
  if ((48 <=? n) && (n <=? 57))%Z then Some (n - 48)%Z else None.

Fixpoint read_digits (s : string) (acc : Z) (n : nat) : Z * nat * string :=
  match s with
  | EmptyString => (acc, n, s)
  | String c r =>
      match digit_of c with
      | Some d => read_digits r (10 * acc + d)%Z (S n)
      | None => (acc, n, s)
      end
  end.

Definition read_sign (s : string) : bool * string :=
  match s with
  | String "-" r => (true, r)
  | String "+" r => (false, r)
  | _ => (false, s)
  end.

Definition scale (m e : Z) : Q :=
  if (0 <=? e)%Z then inject_Z (m * 10 ^ e) else (m # Z.to_pos (10 ^ (- e))).

Definition signed (neg : bool) (z : Z) : Z := if neg then (- z)%Z else z.

Definition parse (s : string) : option Q :=
  let '(neg, s) := read_sign s in
  let '(ip, ni, s) := read_digits s 0 0 in
  let '(m, nf, s) :=
    match s with
    | String "." r => read_digits r ip 0
    | _ => (ip, 0%nat, s)
    end in
  if (ni + nf =? 0)%nat then None else
  match s with
  | EmptyString => Some (scale (signed neg m) (- Z.of_nat nf))
  | String c r =>
      if Ascii.eqb c "e" || Ascii.eqb c "E" then
        let '(eneg, r) := read_sign r in
        let '(e, ne, r) := read_digits r 0 0 in
        match ne, r with
        | S _, EmptyString => Some (scale (signed neg m) (signed eneg e - Z.of_nat nf))
        | _, _ => None
        end
      else None
  end.

End decimal.

Definition decimal_builtins : Builtins := {| float := decimal.parse |}.

(** A bench instrument that answers the preamble and data queries with a
    fixed line and block, reports the trigger mode [EDGE], and accepts
    every other command. *)
Record bench := Bench {
  preamble_line : string;
  data_block : list byte
}.

Definition bench_ask (cmd : string) (b : bench) : string :=
  if String.eqb cmd ":WAV:PRE?" then preamble_line b
  else if String.eqb cmd ":TRIG:MODE?" then "EDGE"
  else if String.eqb cmd "*IDN?" then "RIGOL TECHNOLOGIES,DS4024,DS4A000000001,00.02.03"
  else "1".

Definition bench_transport : Transport bench := {|
  instrument_write := λ _ b, (Ok (), b);
  instrument_ask := λ cmd b, (Ok (bench_ask cmd b), b);
  instrument_ask_raw := λ _ b, (Ok (data_block b), b)
|}.

(** An instrument that accepts every command, answers every query with
    the line [1], and has no data. *)
Definition ones_transport : Transport unit := {|
  instrument_write := λ _ u, (Ok (), u);
  instrument_ask := λ _ u, (Ok "1", u);
  instrument_ask_raw := λ _ u, (Ok [], u)
|}.

(** A codec whose documents are the trees they denote. *)
Definition tree_codec : JsonCodec pyval := {| json_dumps := Ok; json_loads := Ok |}.

(** A stand-in for [Numerics]: an int converts to the float of the same
    value, and array arithmetic with an operand that is not a float is
    refused.  The examples below compute with floats only. *)
Definition plain_numerics : Numerics := {|
  float_of_int := λ z, Ok (inject_Z z);
  np_time := λ _ _ _, Raise TypeError;
  np_voltage := λ _ _ _, Raise TypeError
|}.

(** The preamble of the specification's worked example,
    ["0,0,1400,1,1e-06,-0.0007,0,0.04,5,127"]. *)
Definition example_preamble : gmap string pyval :=
  <["format" := PyNum 0]> (<["mode" := PyNum 0]> (<["n_points" := PyNum 1400]>
  (<["n_avgs" := PyNum 1]> (<["x_step" := PyNum (1 # 1000000)]>
  (<["x_origin" := PyNum (-7 # 10000)]> (<["x_reference" := PyNum 0]>
  (<["y_step" := PyNum (4 # 100)]> (<["y_origin" := PyNum 5]>
  (<["y_reference" := PyNum 127]> ∅))))))))).

(** The 11 bytes ["#9000000000"] that open a block, and the [\n] that closes it. *)
Definition block_header : list byte :=
  [x23; x39; x30; x30; x30; x30; x30; x30; x30; x30; x30].
Definition block_trailer : list byte := [x0a].

(** A block of framing only, with no sample in between. *)
Definition empty_block : list byte := (block_header ++ block_trailer)%list.

(** A block that carries the samples 120 and 130. *)
Definition short_block : list byte := (block_header ++ [x78; x82] ++ block_trailer)%list.

(** A bench instrument that holds the worked example's preamble and
    [short_block], and one whose preamble reports the acquisition mode 1. *)
Definition bench_world : world bench :=
  World (Bench "0,0,1400,1,1e-06,-0.0007,0,0.04,5,127" short_block) [].
Definition bench_world_mode1 : world bench :=
  World (Bench "0,1,1400,1,1e-06,-0.0007,0,0.04,5,127" short_block) [].

Definition no_settings : pyval := PyDict ∅.

(** The document that [to_jsons] writes for the worked example's preamble
    and [short_block], with [version] in place of the revision; as text,
    [{"version": 2, "idn_line": "", "channel_settings": {},
      "trigger_settings": {}, "preamble": {"format": 0.0, ...},
      "buf_b64": "IzkwMDAwMDAwMDB4ggo="}] when [version] is 2. *)
Definition example_document (version : pyval) : gmap string pyval :=
  <["version" := version]> (
  <["idn_line" := PyStr ""]> (
  <["channel_settings" := no_settings]> (
  <["trigger_settings" := no_settings]> (
  <["preamble" := PyDict example_preamble]> (
  <["buf_b64" := PyStr "IzkwMDAwMDAwMDB4ggo="]> ∅))))).

(** A bundle document that holds the example document under [CHAN1]. *)
Definition example_bundle_document (version : pyval) : gmap string pyval :=
  <["version" := version]> (
  <["title" := PyStr "Fader at midpt"]> (
  <["channel_names" := PyDict {[ "CHAN1" := PyStr "left in" ]}]> (
  <["waveforms" := PyDict {[ "CHAN1" := PyDict (example_document (PyInt 1)) ]}]> ∅))).

(** The Waveform of the worked example's preamble and [short_block], and a
    bundle that holds it under [CHAN1]. *)
Definition example_waveform : Waveform.obj :=
  Waveform.built example_preamble short_block no_settings (PyStr "") no_settings
    (PyInt 1) (1 # 1000000) (-7 # 10000) (4 # 100) 5 127.

(** The preamble of the line ["0,1,1400,1,1e-06,-0.0007,0,0.04,5,127"],
    whose acquisition mode is 1. *)
Definition example_preamble_mode1 : gmap string pyval :=
  <["mode" := PyNum 1]> example_preamble.

Definition example_bundle : WaveformBundle.obj :=
  WaveformBundle.__init__ (PyStr "Fader at midpt")
    (PyDict {[ "CHAN1" := PyStr "left in" ]})
    {[ "CHAN1" := example_waveform ]} (PyInt 1).

(** * Properties *)

(** ** Sequences and arithmetic *)

Lemma Qplus_comm_eq (a b : Q) : (a + b)%Q = (b + a)%Q.
Proof.
  unfold Qplus. f_equal; [apply Z.add_comm | apply Pos.mul_comm].
Qed.

Lemma Qmult_comm_eq (a b : Q) : (a * b)%Q = (b * a)%Q.
Proof.
  unfold Qmult. f_equal; [apply Z.mul_comm | apply Pos.mul_comm].
Qed.

Lemma py_slice_frame_length {A} (l : list A) :
  List.length (py_slice l 11 (-1)) = (List.length l - 12)%nat.
Proof.
  unfold py_slice, slice_index.
  change (11 <? 0)%Z with false. change (-1 <? 0)%Z with true. cbv iota.
  rewrite length_take, length_drop. lia.
Qed.

Lemma py_slice_framed {A} (header samples : list A) (terminator : A) :
  List.length header = 11%nat →
  py_slice (header ++ samples ++ [terminator]) 11 (-1) = samples.
Proof.
  intros Hh. unfold py_slice, slice_index.
  change (11 <? 0)%Z with false. change (-1 <? 0)%Z with true. cbv iota.
  rewrite !length_app, Hh. cbn [List.length].
  replace (Nat.min (Z.to_nat 11) (11 + (List.length samples + 1)))
    with (List.length header) by lia.
  rewrite drop_app_length.
  replace (Z.to_nat (Z.max 0 (-1 + Z.of_nat (11 + (List.length samples + 1))))
           - List.length header)%nat
    with (List.length samples) by lia.
  apply take_app_length.
Qed.

Lemma arange_length n : List.length (arange n) = n.
Proof. unfold arange. now rewrite length_fmap, length_seq. Qed.

Lemma arange_lookup n i : (i < n)%nat → arange n !! i = Some (inject_Z (Z.of_nat i)).
Proof.
  intros Hi. unfold arange. rewrite list_lookup_fmap.
  rewrite lookup_seq_lt by done. reflexivity.
Qed.

Lemma byte_to_Q_range (s : byte) : (0 <= byte_to_Q s)%Q ∧ (byte_to_Q s <= 255)%Q.
Proof.
  unfold byte_to_Q. pose proof (Byte.to_N_bounded s) as Hs.
  split.
  - change 0%Q with (inject_Z 0). rewrite <- Zle_Qle. lia.
  - change 255%Q with (inject_Z 255). rewrite <- Zle_Qle. lia.
Qed.

(** ** Waveform construction *)

Section Construction.
Context {numerics : Numerics}.

(** With floats for the scaling entries the constructor computes in
    float arithmetic alone. *)
Lemma init_ok p raw cs idn ts v fmt dx x0 dy yo yr :
  p !! "format" = Some fmt → py_ne_zero fmt = false →
  p !! "x_step" = Some (PyNum dx) → Qeq_bool dx 0 = false →
  p !! "x_origin" = Some (PyNum x0) →
  p !! "y_step" = Some (PyNum dy) →
  p !! "y_origin" = Some (PyNum yo) →
  p !! "y_reference" = Some (PyNum yr) →
  Waveform.__init__ p raw cs idn ts v
  = Ok (Waveform.built p raw cs idn ts v dx x0 dy yo yr).
Proof.
  intros Hf Hz Hdx Hnz Hx0 Hdy Hyo Hyr.
  unfold Waveform.__init__, getitem, py_inv.
  rewrite Hf. cbn. rewrite Hz, Hdx, Hx0, Hdy, Hyo, Hyr. cbn.
  rewrite Hnz. reflexivity.
Qed.

(** What a successful construction went through. *)
Lemma init_inv p raw cs idn ts v w :
  Waveform.__init__ p raw cs idn ts v = Ok w →
  ∃ fmt dx x0 dy yo yr y0,
    p !! "format" = Some fmt ∧ py_ne_zero fmt = false ∧
    p !! "x_step" = Some dx ∧ p !! "x_origin" = Some x0 ∧
    p !! "y_step" = Some dy ∧ p !! "y_origin" = Some yo ∧
    p !! "y_reference" = Some yr ∧
    py_sub yo yr = Ok y0 ∧
    py_inv dx = Ok (Waveform.Fs w) ∧
    time_axis x0 dx (List.length (py_slice raw 11 (-1))) = Ok (Waveform.t w) ∧
    voltages y0 (py_slice raw 11 (-1)) dy = Ok (Waveform.y w) ∧
    Waveform.readings w = py_slice raw 11 (-1) ∧
    Waveform.preamble w = p ∧ Waveform.rawbuf w = raw ∧
    Waveform.channel_settings w = cs ∧ Waveform.idn_line w = idn ∧
    Waveform.trigger_settings w = ts ∧ Waveform.version w = v.
Proof.
  unfold Waveform.__init__, getitem.
  destruct (p !! "format") as [fmt|]; cbn; [|discriminate].
  destruct (py_ne_zero fmt) eqn:Hz; [discriminate|].
  destruct (p !! "x_step") as [dx|]; cbn; [|discriminate].
  destruct (p !! "x_origin") as [x0|]; cbn; [|discriminate].
  destruct (p !! "y_step") as [dy|]; cbn; [|discriminate].
  destruct (p !! "y_origin") as [yo|]; cbn; [|discriminate].
  destruct (p !! "y_reference") as [yr|]; cbn; [|discriminate].
  destruct (py_sub yo yr) as [y0|] eqn:Hy0; cbn; [|discriminate].
  destruct (py_inv dx) as [Fs|] eqn:HFs; cbn; [|discriminate].
  destruct (time_axis x0 dx _) as [t|] eqn:Ht; cbn; [|discriminate].
  destruct (voltages y0 _ dy) as [y|] eqn:Hy; cbn; [|discriminate].
  intros [= <-]. exists fmt, dx, x0, dy, yo, yr, y0. cbn. repeat split; done.
Qed.

(** The constructor stores its arguments as they are. *)
Lemma init_fields p raw cs idn ts v w :
  Waveform.__init__ p raw cs idn ts v = Ok w →
  Waveform.preamble w = p ∧ Waveform.rawbuf w = raw ∧
  Waveform.channel_settings w = cs ∧ Waveform.idn_line w = idn ∧
  Waveform.trigger_settings w = ts ∧ Waveform.version w = v.
Proof.
  intros Hw. apply init_inv in Hw
    as (?&?&?&?&?&?&?&_&_&_&_&_&_&_&_&_&_&_&_&?&?&?&?&?&?).
  repeat split; assumption.
Qed.

(** The series of a Waveform whose horizontal entries are floats. *)
Lemma init_time p raw cs idn ts v w dx x0 :
  Waveform.__init__ p raw cs idn ts v = Ok w →
  p !! "x_step" = Some (PyNum dx) → p !! "x_origin" = Some (PyNum x0) →
  Waveform.Fs w = (1 / dx)%Q ∧
  Waveform.t w = (λ i, x0 + dx * i)%Q <$> arange (List.length (Waveform.readings w)).
Proof.
  intros Hw Hdx Hx0. apply init_inv in Hw
    as (?&?&?&?&?&?&?&_&_&Edx&Ex0&_&_&_&_&HFs&Ht&_&Hr&_).
  rewrite Hdx in Edx. rewrite Hx0 in Ex0.
  injection Edx as <-. injection Ex0 as <-. rewrite Hr.
  unfold py_inv in HFs. cbn in HFs, Ht.
  destruct (Qeq_bool dx 0); [discriminate|].
  injection HFs as <-. injection Ht as <-. split; reflexivity.
Qed.

(** The voltages of a Waveform whose vertical entries are floats. *)
Lemma init_voltage p raw cs idn ts v w d o r :
  Waveform.__init__ p raw cs idn ts v = Ok w →
  p !! "y_step" = Some (PyNum d) → p !! "y_origin" = Some (PyNum o) →
  p !! "y_reference" = Some (PyNum r) →
  Waveform.y w = (λ s, (o - r + byte_to_Q s) * d)%Q <$> Waveform.readings w.
Proof.
  intros Hw Hd Ho Hr. apply init_inv in Hw
    as (?&?&?&?&?&?&?&_&_&_&_&Ed&Eo&Er&Hy0&_&_&Hy&Hrd&_).
  rewrite Hd in Ed. rewrite Ho in Eo. rewrite Hr in Er.
  injection Ed as <-. injection Eo as <-. injection Er as <-. rewrite Hrd.
  cbn in Hy0. injection Hy0 as <-. cbn in Hy. now injection Hy as <-.
Qed.

(** C8: a preamble whose [format] entry differs from 0 makes the
    constructor raise [ValueError], whatever the block and the settings
    are; no Waveform object comes back. *)
Theorem unsupported_format_rejected (p : gmap string pyval) (raw : list byte)
    (cs idn ts v fmt : pyval) :
  p !! "format" = Some fmt → py_ne_zero fmt = true →
  Waveform.__init__ p raw cs idn ts v = Raise ValueError.
Proof.
  intros Hf Hnz. unfold Waveform.__init__, getitem.
  rewrite Hf. simpl. now rewrite Hnz.
Qed.

(** C2, amended: the constructor never compares the length of the raw
    block with [n_points], and never rejects for the block.  For a
    preamble whose scaling entries [x_step], [x_origin], [y_step],
    [y_origin] and [y_reference], where present, are floats, whether it
    raises, and which exception, is the same for any two blocks. *)
Theorem rejection_ignores_block (p : gmap string pyval) (raw raw' : list byte)
    (cs idn ts v : pyval) :
  (∀ k x, k ∈ ["x_step"; "x_origin"; "y_step"; "y_origin"; "y_reference"] →
          p !! k = Some x → ∃ q, x = PyNum q) →
  error_of (Waveform.__init__ p raw cs idn ts v)
  = error_of (Waveform.__init__ p raw' cs idn ts v).
Proof.
  intros Hnum.
  assert (∀ k x, p !! k = Some x →
            k ∈ ["x_step"; "x_origin"; "y_step"; "y_origin"; "y_reference"] →
            ∃ q, x = PyNum q) as Hfloat by eauto.
  unfold Waveform.__init__, getitem, py_inv.
  destruct (p !! "format") as [fmt|]; simpl; [|reflexivity].
  destruct (py_ne_zero fmt); [reflexivity|].
  destruct (p !! "x_step") as [dx|] eqn:Edx; simpl; [|reflexivity].
  destruct (p !! "x_origin") as [x0|] eqn:Ex0; simpl; [|reflexivity].
  destruct (p !! "y_step") as [dy|] eqn:Edy; simpl; [|reflexivity].
  destruct (p !! "y_origin") as [yo|] eqn:Eyo; simpl; [|reflexivity].
  destruct (p !! "y_reference") as [yr|] eqn:Eyr; simpl; [|reflexivity].
  destruct (Hfloat _ _ Edx) as [? ->]; [set_solver|].
  destruct (Hfloat _ _ Ex0) as [? ->]; [set_solver|].
  destruct (Hfloat _ _ Edy) as [? ->]; [set_solver|].
  destruct (Hfloat _ _ Eyo) as [? ->]; [set_solver|].
  destruct (Hfloat _ _ Eyr) as [? ->]; [set_solver|]. simpl.
  destruct (Qeq_bool _ 0); reflexivity.
Qed.

(** C5, amended: for a constructed Waveform whose preamble holds the
    floats [x_step = dx], [x_origin = x0], [y_step = d], [y_origin = o]
    and [y_reference = r], the sample rate is [1/dx]; the three series
    have one entry per byte between the 11 byte header and the
    terminator of the block; [time[i] = x0 + i*dx] for every index [i]
    of the series, and the voltage of a sample byte [s] is
    [(s + (o - r)) * d]. *)
Theorem derived_series (p : gmap string pyval) (raw : list byte)
    (cs idn ts v : pyval) (w : Waveform.obj) (dx x0 d o r : Q) :
  Waveform.__init__ p raw cs idn ts v = Ok w →
  p !! "x_step" = Some (PyNum dx) →
  p !! "x_origin" = Some (PyNum x0) →
  p !! "y_step" = Some (PyNum d) →
  p !! "y_origin" = Some (PyNum o) →
  p !! "y_reference" = Some (PyNum r) →
  Waveform.Fs w = (1 / dx)%Q ∧
  List.length (Waveform.readings w) = (List.length raw - 12)%nat ∧
  List.length (Waveform.t w) = List.length (Waveform.readings w) ∧
  List.length (Waveform.y w) = List.length (Waveform.readings w) ∧
  (∀ i : nat, (i < List.length (Waveform.readings w))%nat →
     Waveform.t w !! i = Some (x0 + inject_Z (Z.of_nat i) * dx)%Q) ∧
  (∀ (i : nat) (s : byte), Waveform.readings w !! i = Some s →
     Waveform.y w !! i = Some ((byte_to_Q s + (o - r)) * d)%Q).
Proof.
  intros Hw Hdx Hx0 Hd Ho Hr.
  destruct (init_time _ _ _ _ _ _ _ _ _ Hw Hdx Hx0) as [HFs Ht].
  pose proof (init_voltage _ _ _ _ _ _ _ _ _ _ Hw Hd Ho Hr) as Hy.
  apply init_inv in Hw as (?&?&?&?&?&?&?&_&_&_&_&_&_&_&_&_&_&_&Hrd&_).
  split; [exact HFs|]. split; [rewrite Hrd; apply py_slice_frame_length|].
  split; [now rewrite Ht, length_fmap, arange_length|].
  split; [now rewrite Hy, length_fmap|]. split.
  - intros i Hi. rewrite Ht, list_lookup_fmap, arange_lookup by done. simpl.
    now rewrite (Qmult_comm_eq dx).
  - intros i s Hs. rewrite Hy, list_lookup_fmap, Hs. simpl.
    now rewrite (Qplus_comm_eq (o - r)).
Qed.

(** C10, amended: when [format] equals 0 and the entries [x_step],
    [x_origin], [y_step], [y_origin] and [y_reference] are floats with
    [x_step] nonzero, the constructor succeeds for a block of any length
    [L] and decodes exactly [max (L - 12) 0] samples; a preamble that
    differs only at [n_points] (another value, or no entry) gives the
    same samples, sample rate, times and voltages. *)
Theorem construction_ignores_n_points (p : gmap string pyval) (raw : list byte)
    (cs idn ts v fmt : pyval) (dx x0 dy yo yr : Q) :
  p !! "format" = Some fmt → py_ne_zero fmt = false →
  p !! "x_step" = Some (PyNum dx) → ¬ (dx == 0)%Q →
  p !! "x_origin" = Some (PyNum x0) →
  p !! "y_step" = Some (PyNum dy) →
  p !! "y_origin" = Some (PyNum yo) →
  p !! "y_reference" = Some (PyNum yr) →
  ∃ w, Waveform.__init__ p raw cs idn ts v = Ok w ∧
       Z.of_nat (List.length (Waveform.readings w))
       = Z.max (Z.of_nat (List.length raw) - 12) 0 ∧
       ∀ p' : gmap string pyval,
         (∀ k, k ≠ "n_points" → p' !! k = p !! k) →
         ∃ w', Waveform.__init__ p' raw cs idn ts v = Ok w' ∧
               Waveform.readings w' = Waveform.readings w ∧
               Waveform.Fs w' = Waveform.Fs w ∧
               Waveform.t w' = Waveform.t w ∧
               Waveform.y w' = Waveform.y w.
Proof.
  intros Hf Zf Hdx Hnz Hx0 Hdy Hyo Hyr.
  assert (Zx : Qeq_bool dx 0 = false).
  { apply not_true_is_false. intros E. apply Hnz, Qeq_bool_iff, E. }
  eexists. split; [eapply init_ok; eassumption|]. split.
  - simpl. rewrite py_slice_frame_length. lia.
  - intros p' Hp'.
    exists (Waveform.built p' raw cs idn ts v dx x0 dy yo yr).
    split; [|repeat split].
    eapply init_ok; try eassumption; rewrite Hp' by done; eassumption.
Qed.

End Construction.

(** ** The worked example *)

Lemma example_preamble_floats k x :
  example_preamble !! k = Some x → ∃ q, x = PyNum q.
Proof.
  unfold example_preamble.
  repeat (rewrite lookup_insert; case_decide; [intros [= <-]; eauto|]).
  now rewrite lookup_empty.
Qed.

Lemma example_waveform_init :
  Waveform.__init__ (numerics := plain_numerics) example_preamble short_block
    no_settings (PyStr "") no_settings (PyInt 1) = Ok example_waveform.
Proof. apply (init_ok _ _ _ _ _ _ (PyNum 0)); reflexivity. Qed.

(** The worked example of the specification: the preamble line and a
    block whose first sample is 120 give a sample rate of 1e6 and a first
    voltage of (120 + (5 - 127)) * 0.04 = -0.08. *)
Example worked_example :
  DS4024_SCPI._parse_preamble (builtins := decimal_builtins)
    "0,0,1400,1,1e-06,-0.0007,0,0.04,5,127" = Ok example_preamble ∧
  Waveform.__init__ (numerics := plain_numerics) example_preamble short_block
    no_settings (PyStr "") no_settings (PyInt 1) = Ok example_waveform ∧
  (Waveform.Fs example_waveform == 1000000)%Q ∧
  Waveform.y example_waveform !! 0%nat = Some (-8 # 100)%Q.
Proof.
  split; [reflexivity|].
  split; [exact example_waveform_init|]. split; reflexivity.
Qed.

Lemma unsupported_format_rejected_witness :
  Waveform.__init__ (numerics := plain_numerics)
    (<["format" := PyNum 1]> example_preamble) short_block
    no_settings (PyStr "") no_settings (PyInt 1) = Raise ValueError.
Proof.
  apply (unsupported_format_rejected _ _ _ _ _ _ (PyNum 1)); reflexivity.
Defined.

(** C2, as stated, fails: the worked example's preamble announces 1400
    points, the block carries two samples between its 12 framing bytes,
    and the constructor returns a Waveform. *)
Lemma length_mismatch_accepted :
  example_preamble !! "n_points" = Some (PyNum 1400) ∧
  List.length short_block ≠ (1400 + 12)%nat ∧
  ∃ w, Waveform.__init__ (numerics := plain_numerics) example_preamble short_block
         no_settings (PyStr "") no_settings (PyInt 1) = Ok w.
Proof.
  split; [reflexivity|]. split; [vm_compute; lia|].
  exists example_waveform. exact example_waveform_init.
Qed.

Lemma rejection_ignores_block_witness :
  error_of (Waveform.__init__ (numerics := plain_numerics) example_preamble short_block
              no_settings (PyStr "") no_settings (PyInt 1))
  = error_of (Waveform.__init__ (numerics := plain_numerics) example_preamble empty_block
                no_settings (PyStr "") no_settings (PyInt 1)).
Proof.
  apply rejection_ignores_block. intros k x _. apply example_preamble_floats.
Defined.

(** C5, as stated, fails: with 1400 announced points and a block that
    carries two samples the constructor succeeds and the time series has
    two entries, so there is no [time[2]] although 2 lies in
    [0, n_points). *)
Lemma time_series_shorter_than_n_points :
  example_preamble !! "n_points" = Some (PyNum 1400) ∧
  ∃ w, Waveform.__init__ (numerics := plain_numerics) example_preamble short_block
         no_settings (PyStr "") no_settings (PyInt 1) = Ok w
       ∧ List.length (Waveform.t w) = 2%nat
       ∧ Waveform.t w !! 2%nat = None.
Proof.
  split; [reflexivity|]. exists example_waveform.
  split; [exact example_waveform_init|]. split; reflexivity.
Qed.

Lemma derived_series_witness :
  ∃ w, Waveform.__init__ (numerics := plain_numerics) example_preamble short_block
         no_settings (PyStr "") no_settings (PyInt 1) = Ok w
       ∧ Waveform.Fs w = (1 / (1 # 1000000))%Q
       ∧ Waveform.y w !! 0%nat = Some ((byte_to_Q x78 + (5 - 127)) * (4 # 100))%Q.
Proof.
  exists example_waveform. split; [exact example_waveform_init|].
  destruct (derived_series example_preamble short_block
              no_settings (PyStr "") no_settings (PyInt 1) example_waveform
              (1 # 1000000) (-7 # 10000) (4 # 100) 5 127 example_waveform_init
              eq_refl eq_refl eq_refl eq_refl eq_refl)
    as (HFs & _ & _ & _ & _ & Hy).
  split; [exact HFs|]. exact (Hy 0%nat x78 eq_refl).
Defined.

(** C10, as stated, fails: with [format] 0 and an [x_step] of 0, which
    the preamble line ["0,0,1400,1,0,-0.0007,0,0.04,5,127"] decodes to,
    the constructor raises [ZeroDivisionError] at the sample rate. *)
Lemma zero_x_step_raises :
  (<["x_step" := PyNum 0]> example_preamble) !! "format" = Some (PyNum 0) ∧
  Waveform.__init__ (numerics := plain_numerics)
    (<["x_step" := PyNum 0]> example_preamble) short_block
    no_settings (PyStr "") no_settings (PyInt 1) = Raise ZeroDivisionError.
Proof. split; reflexivity. Qed.

Lemma construction_ignores_n_points_witness :
  ∃ w, Waveform.__init__ (numerics := plain_numerics) example_preamble empty_block
         no_settings (PyStr "") no_settings (PyInt 1) = Ok w
       ∧ Z.of_nat (List.length (Waveform.readings w)) = 0%Z.
Proof.
  destruct (construction_ignores_n_points (numerics := plain_numerics)
              example_preamble empty_block
              no_settings (PyStr "") no_settings (PyInt 1)
              (PyNum 0) (1 # 1000000) (-7 # 10000) (4 # 100) 5 127)
    as (w & Hw & Hlen & _); try reflexivity.
  - intros E. discriminate E.
  - exists w. split; [exact Hw|]. rewrite Hlen. reflexivity.
Defined.

(** ** base64: decoding inverts encoding *)

Section Base64.
Import base64.
#[local] Open Scope N_scope.

(* quotients and remainders by constants, for [lia] *)
#[local] Ltac Zify.zify_post_hook ::= Z.to_euclidean_division_equations.

Lemma list_ind3 {A} (P : list A → Prop) :
  P [] → (∀ a, P [a]) → (∀ a b, P [a; b]) →
  (∀ a b c l, P l → P (a :: b :: c :: l)) →
  ∀ l, P l.
Proof.
  intros H0 H1 H2 H3.
  fix IH 1. intros [|a [|b [|c l]]].
  - exact H0.
  - apply H1.
  - apply H2.
  - apply H3, IH.
Qed.

Lemma byte_of_to_N (b : byte) : byte_of_N (Byte.to_N b) = b.
Proof. unfold byte_of_N. now rewrite Byte.of_to_N. Qed.

Lemma to_N_lt (b : byte) : Byte.to_N b < 256.
Proof. pose proof (Byte.to_N_bounded b). lia. Qed.

Lemma below_64 (P : N → bool) :
  forallb P (N.of_nat <$> seq 0 64) = true → ∀ n, n < 64 → P n = true.
Proof.
  intros H n Hn. rewrite forallb_forall in H. apply H.
  apply in_map_iff. exists (N.to_nat n). split; [lia|].
  apply in_seq. lia.
Qed.

Lemma table_a2b_b2a n : n < 64 → table_a2b (table_b2a n) = Some n.
Proof.
  intros Hn.
  apply (below_64 (λ n, bool_decide (table_a2b (table_b2a n) = Some n))) in Hn.
  - now apply bool_decide_eq_true in Hn.
  - vm_compute. reflexivity.
Qed.

Lemma table_b2a_not_pad n : n < 64 → Byte.eqb (table_b2a n) pad = false.
Proof.
  intros Hn.
  apply (below_64 (λ n, negb (Byte.eqb (table_b2a n) pad))) in Hn.
  - now apply negb_true_iff in Hn.
  - vm_compute. reflexivity.
Qed.

Lemma table_b2a_ascii n : n < 64 → is_ascii (table_b2a n) = true.
Proof.
  intros Hn. apply (below_64 (λ n, is_ascii (table_b2a n))) in Hn; [done|].
  vm_compute. reflexivity.
Qed.

(** The decoder on a character of the alphabet. *)
Lemma a2b_loop_data n data quad_pos leftchar pads out :
  n < 64 →
  a2b_loop (table_b2a n :: data) quad_pos leftchar pads out =
    if quad_pos =? 0 then a2b_loop data 1 n 0 out
    else if quad_pos =? 1 then
      a2b_loop data 2 (n mod 16) 0 (out ++ [byte_of_N (leftchar * 4 + n / 16)])%list
    else if quad_pos =? 2 then
      a2b_loop data 3 (n mod 4) 0 (out ++ [byte_of_N (leftchar * 16 + n / 4)])%list
    else a2b_loop data 0 0 0 (out ++ [byte_of_N (leftchar * 64 + n)])%list.
Proof.
  intros Hn. cbn [a2b_loop].
  now rewrite table_b2a_not_pad, table_a2b_b2a by done.
Qed.

Lemma a2b_loop_encode (s out : list byte) :
  a2b_loop (b64encode s) 0 0 0 out = Ok (out ++ s)%list.
Proof.
  revert out. induction s as [|a|a b|a b c s IH] using list_ind3; intros out.
  - cbn. now rewrite app_nil_r.
  - pose proof (to_N_lt a). cbn [b64encode].
    rewrite !a2b_loop_data by lia. cbn.
    replace (Byte.to_N a / 4 * 4 + Byte.to_N a mod 4 * 16 / 16)
      with (Byte.to_N a) by lia.
    now rewrite byte_of_to_N.
  - pose proof (to_N_lt a). pose proof (to_N_lt b). cbn [b64encode].
    rewrite !a2b_loop_data by lia. cbn.
    replace (Byte.to_N a / 4 * 4 + (Byte.to_N a mod 4 * 16 + Byte.to_N b / 16) / 16)
      with (Byte.to_N a) by lia.
    replace ((Byte.to_N a mod 4 * 16 + Byte.to_N b / 16) mod 16 * 16
             + Byte.to_N b mod 16 * 4 / 4)
      with (Byte.to_N b) by lia.
    rewrite !byte_of_to_N. now rewrite <- app_assoc.
  - pose proof (to_N_lt a). pose proof (to_N_lt b). pose proof (to_N_lt c).
    cbn [b64encode].
    rewrite !a2b_loop_data by lia. cbn [N.eqb Pos.eqb].
    replace (Byte.to_N a / 4 * 4 + (Byte.to_N a mod 4 * 16 + Byte.to_N b / 16) / 16)
      with (Byte.to_N a) by lia.
    replace ((Byte.to_N a mod 4 * 16 + Byte.to_N b / 16) mod 16 * 16
             + (Byte.to_N b mod 16 * 4 + Byte.to_N c / 64) / 4)
      with (Byte.to_N b) by lia.
    replace ((Byte.to_N b mod 16 * 4 + Byte.to_N c / 64) mod 4 * 64
             + Byte.to_N c mod 64)
      with (Byte.to_N c) by lia.
    rewrite !byte_of_to_N, IH. now rewrite <- !app_assoc.
Qed.

Lemma b64encode_ascii (s : list byte) : forallb is_ascii (b64encode s) = true.
Proof.
  induction s as [|a|a b|a b c s IH] using list_ind3.
  - reflexivity.
  - pose proof (to_N_lt a). cbn [b64encode forallb].
    rewrite !table_b2a_ascii by lia. reflexivity.
  - pose proof (to_N_lt a). pose proof (to_N_lt b). cbn [b64encode forallb].
    rewrite !table_b2a_ascii by lia. reflexivity.
  - pose proof (to_N_lt a). pose proof (to_N_lt b). pose proof (to_N_lt c).
    cbn [b64encode forallb].
    rewrite !table_b2a_ascii by lia. exact IH.
Qed.

(** The test vectors of RFC 4648, and the decoder on input that is not
    the output of the encoder. *)
Example b64encode_vectors :
  string_of_list_byte <$> (b64encode ∘ list_byte_of_string <$> [""; "f"; "fo"; "foo"; "foob"; "fooba"; "foobar"])
  = [""; "Zg=="; "Zm8="; "Zm9v"; "Zm9vYg=="; "Zm9vYmE="; "Zm9vYmFy"]%string.
Proof. vm_compute. reflexivity. Qed.

Example b64decode_lenient :
  b64decode (PyStr "Zm9v
YmFy") = Ok (list_byte_of_string "foobar") ∧
  b64decode (PyStr "Zg===") = Ok (list_byte_of_string "f") ∧
  b64decode (PyStr "Zg=") = Raise ValueError ∧
  b64decode (PyStr "Zg") = Raise ValueError ∧
  b64decode (PyStr "Z") = Raise ValueError ∧
  b64decode (PyNum 1) = Raise TypeError.
Proof. vm_compute. repeat split. Qed.

(** What [_json_dict] stores under [buf_b64] decodes to the raw block. *)
Lemma b64decode_b64encode (s : list byte) :
  b64decode (PyStr (string_of_list_byte (b64encode s))) = Ok s.
Proof.
  unfold b64decode, a2b_base64.
  rewrite list_byte_of_string_of_list_byte, b64encode_ascii.
  apply a2b_loop_encode.
Qed.
End Base64.


(** ** Serialisation *)

Lemma tree_codec_ok : JsonCodecOk tree_codec.
Proof. split. intros v. exists v. split; reflexivity. Qed.

Lemma json_dict_buf (w : Waveform.obj) :
  Waveform._json_dict w !! "buf_b64"
  = Some (PyStr (string_of_list_byte (base64.b64encode (Waveform.rawbuf w)))).
Proof. unfold Waveform._json_dict. by simplify_map_eq. Qed.

Lemma json_dict_keywords (w : Waveform.obj) :
  delete "rawbuf" (delete "buf_b64" (Waveform._json_dict w))
  = <["version" := Waveform.version w]> (
    <["idn_line" := Waveform.idn_line w]> (
    <["channel_settings" := Waveform.channel_settings w]> (
    <["trigger_settings" := Waveform.trigger_settings w]> (
    <["preamble" := PyDict (Waveform.preamble w)]> ∅)))).
Proof.
  unfold Waveform._json_dict. apply map_eq; intros k.
  repeat (rewrite ?lookup_delete, ?lookup_insert; repeat case_decide; subst; try done).
Qed.

Section Serialisation.
Context {numerics : Numerics}.

Lemma call_init_json_dict p raw cs idn ts v w :
  Waveform.__init__ p raw cs idn ts v = Ok w →
  Waveform.call_init (delete "buf_b64" (Waveform._json_dict w)) raw = Ok w.
Proof.
  intros Hw. destruct (init_fields _ _ _ _ _ _ _ Hw) as (Ep & Er & Ec & Ei & Et & Ev).
  unfold Waveform.call_init. rewrite json_dict_keywords.
  rewrite bool_decide_eq_true_2.
  - revert Ep Ec Ei Et Ev. simplify_map_eq. simpl.
    intros -> -> -> -> ->. exact Hw.
  - rewrite !dom_insert_L, dom_empty_L. unfold Waveform.init_params. set_solver.
Qed.

Lemma from_json_dict_json_dict p raw cs idn ts v w :
  Waveform.__init__ p raw cs idn ts v = Ok w →
  Waveform._from_json_dict (PyDict (Waveform._json_dict w)) = Ok w.
Proof.
  intros Hw. pose proof (init_fields _ _ _ _ _ _ _ Hw) as (_ & Er & _).
  unfold Waveform._from_json_dict, getitem.
  rewrite json_dict_buf. unfold mbind, result_bind.
  rewrite b64decode_b64encode, Er. eapply call_init_json_dict, Hw.
Qed.

(** C1: a Waveform that the constructor built serialises to a document,
    and deserialising that document gives the same Waveform back: its
    version, identity string, channel and trigger settings, preamble and
    raw block are the original ones, and so are the sample, time and
    voltage series derived from them. *)
Theorem serialisation_round_trip {doc : Type} (codec : JsonCodec doc)
    (codec_ok : JsonCodecOk codec)
    (p : gmap string pyval) (raw : list byte) (cs idn ts v : pyval)
    (w : Waveform.obj) :
  Waveform.__init__ p raw cs idn ts v = Ok w →
  ∃ s : doc, Waveform.to_jsons w = Ok s ∧ Waveform.from_jsons s = Ok w.
Proof.
  intros Hw.
  destruct (json_loads_dumps (PyDict (Waveform._json_dict w))) as (s & Hd & Hl).
  exists s. split; [exact Hd|].
  unfold Waveform.from_jsons. rewrite Hl. simpl.
  eapply from_json_dict_json_dict, Hw.
Qed.

(** ** The version of a document *)

Lemma init_with_version p raw cs idn ts v v' w :
  Waveform.__init__ p raw cs idn ts v = Ok w →
  Waveform.__init__ p raw cs idn ts v' = Ok (Waveform.with_version v' w).
Proof.
  unfold Waveform.__init__.
  destruct (getitem p "format") as [fmt|]; cbn; [|discriminate].
  destruct (py_ne_zero fmt); [discriminate|].
  destruct (getitem p "x_step") as [dx|]; cbn; [|discriminate].
  destruct (getitem p "x_origin") as [x0|]; cbn; [|discriminate].
  destruct (getitem p "y_step") as [dy|]; cbn; [|discriminate].
  destruct (getitem p "y_origin") as [yo|]; cbn; [|discriminate].
  destruct (getitem p "y_reference") as [yr|]; cbn; [|discriminate].
  destruct (py_sub yo yr) as [y0|]; cbn; [|discriminate].
  destruct (py_inv dx) as [Fs|]; cbn; [|discriminate].
  destruct (time_axis x0 dx _) as [t|]; cbn; [|discriminate].
  destruct (voltages y0 _ dy) as [y|]; cbn; [|discriminate].
  intros [= <-]. reflexivity.
Qed.

Lemma call_init_version dp raw v w :
  Waveform.call_init dp raw = Ok w →
  Waveform.call_init (<["version" := v]> dp) raw = Ok (Waveform.with_version v w).
Proof.
  unfold Waveform.call_init.
  rewrite (delete_insert_ne dp "rawbuf" "version") by done.
  set (kw := delete "rawbuf" dp).
  destruct (bool_decide (dom kw ⊆ Waveform.init_params)) eqn:Hdom; [|discriminate].
  apply bool_decide_eq_true in Hdom.
  rewrite bool_decide_eq_true_2
    by (rewrite dom_insert_L; set_solver).
  rewrite !lookup_insert_ne by done. rewrite lookup_insert_eq.
  destruct (kw !! "preamble") as [[| | |p]|]; try discriminate.
  all: destruct (kw !! "channel_settings") as [cs|]; try discriminate.
  all: destruct (kw !! "idn_line") as [idn|]; try discriminate.
  all: destruct (kw !! "trigger_settings") as [ts|]; try discriminate.
  simpl. apply init_with_version.
Qed.

Lemma waveform_version_ignored d v w :
  Waveform._from_json_dict (PyDict d) = Ok w →
  Waveform._from_json_dict (PyDict (<["version" := v]> d))
  = Ok (Waveform.with_version v w).
Proof.
  unfold Waveform._from_json_dict, getitem.
  rewrite lookup_insert_ne by done.
  destruct (d !! "buf_b64") as [b64|]; [|discriminate]. simpl.
  destruct (base64.b64decode b64) as [raw|]; [|discriminate]. simpl.
  rewrite (delete_insert_ne d "buf_b64" "version") by done.
  apply call_init_version.
Qed.

Lemma bundle_version_ignored d v b :
  WaveformBundle._from_json_dict (PyDict d) = Ok b →
  WaveformBundle._from_json_dict (PyDict (<["version" := v]> d))
  = Ok (WaveformBundle.with_version v b).
Proof.
  unfold WaveformBundle._from_json_dict, getitem.
  rewrite lookup_insert_ne by done.
  destruct (d !! "waveforms") as [[| | |wd]|]; try discriminate. simpl.
  destruct (WaveformBundle.decode_waveforms wd) as [wfs|]; [|discriminate]. simpl.
  rewrite (delete_insert_ne d "waveforms" "version") by done.
  set (kw := delete "waveforms" d).
  destruct (bool_decide (dom kw ⊆ WaveformBundle.init_params)) eqn:Hdom; [|discriminate].
  apply bool_decide_eq_true in Hdom.
  rewrite bool_decide_eq_true_2
    by (rewrite dom_insert_L; set_solver).
  rewrite !lookup_insert_ne by done. rewrite lookup_insert_eq.
  destruct (kw !! "title") as [title|]; [|discriminate].
  destruct (kw !! "channel_names") as [names|]; [|discriminate].
  simpl. intros [= <-]. reflexivity.
Qed.

(** C4, amended: deserialisation does not inspect the version.  If a
    document is accepted, the document that differs from it only in the
    top-level [version] value is accepted too, whatever that value is, and
    gives the same object with that value as its version; this holds for
    [Waveform.from_jsons] and for [WaveformBundle.from_jsons]. *)
Theorem version_not_inspected {doc : Type} (codec : JsonCodec doc)
    (s s' : doc) (d : gmap string pyval) (v : pyval) :
  json_loads s = Ok (PyDict d) →
  json_loads s' = Ok (PyDict (<["version" := v]> d)) →
  (∀ w, Waveform.from_jsons s = Ok w →
        Waveform.from_jsons s' = Ok (Waveform.with_version v w)) ∧
  (∀ b, WaveformBundle.from_jsons s = Ok b →
        WaveformBundle.from_jsons s' = Ok (WaveformBundle.with_version v b)).
Proof.
  intros Hs Hs'. unfold Waveform.from_jsons, WaveformBundle.from_jsons.
  rewrite Hs, Hs'. simpl. split.
  - intros w. apply waveform_version_ignored.
  - intros b. apply bundle_version_ignored.
Qed.

End Serialisation.

Lemma example_document_decoded v :
  Waveform._from_json_dict (numerics := plain_numerics) (PyDict (example_document v))
  = Ok (Waveform.with_version v example_waveform).
Proof.
  assert (Waveform._from_json_dict (numerics := plain_numerics)
            (PyDict (example_document (PyInt 1))) = Ok example_waveform) as H1.
  { reflexivity. }
  apply (waveform_version_ignored _ v) in H1. rewrite <- H1.
  unfold example_document. now rewrite insert_insert_eq.
Qed.

Lemma serialisation_round_trip_witness :
  ∃ (w : Waveform.obj) (s : pyval),
    Waveform.__init__ (numerics := plain_numerics) example_preamble short_block
      no_settings (PyStr "") no_settings (PyInt 1) = Ok w
    ∧ Waveform.to_jsons (H := tree_codec) w = Ok s
    ∧ Waveform.from_jsons (numerics := plain_numerics) (H := tree_codec) s = Ok w.
Proof.
  destruct (serialisation_round_trip tree_codec tree_codec_ok _ _ _ _ _ _ _
              example_waveform_init) as (s & Hs & Hl).
  exists example_waveform, s. split; [exact example_waveform_init|]. auto.
Defined.

(** C4, as stated, fails: the document of the worked example with the
    version 2, and a bundle document with the version 2, are both
    deserialised; the objects carry 2 as their version. *)
Lemma unknown_version_accepted :
  (∃ w, Waveform.from_jsons (numerics := plain_numerics) (H := tree_codec)
          (PyDict (example_document (PyInt 2))) = Ok w
        ∧ Waveform._from_json_dict (numerics := plain_numerics)
            (PyDict (example_document (PyInt 2))) = Ok w
        ∧ Waveform.version w = PyInt 2) ∧
  (∃ b, WaveformBundle._from_json_dict (numerics := plain_numerics)
          (PyDict (example_bundle_document (PyInt 2))) = Ok b
        ∧ WaveformBundle.version b = PyInt 2).
Proof.
  split.
  - exists (Waveform.with_version (PyInt 2) example_waveform).
    split; [exact (example_document_decoded (PyInt 2))|].
    split; [exact (example_document_decoded (PyInt 2))|]. reflexivity.
  - exists (WaveformBundle.with_version (PyInt 2) example_bundle).
    split; reflexivity.
Qed.

Lemma version_not_inspected_witness :
  ∃ w, Waveform.from_jsons (numerics := plain_numerics) (H := tree_codec)
         (PyDict (example_document (PyInt 1))) = Ok w
       ∧ Waveform.from_jsons (numerics := plain_numerics) (H := tree_codec)
           (PyDict (example_document (PyStr "draft")))
         = Ok (Waveform.with_version (PyStr "draft") w).
Proof.
  exists example_waveform. split; [exact (example_document_decoded (PyInt 1))|].
  refine (proj1 (version_not_inspected tree_codec
                   (PyDict (example_document (PyInt 1)))
                   (PyDict (example_document (PyStr "draft")))
                   (example_document (PyInt 1)) (PyStr "draft") eq_refl _)
            example_waveform (example_document_decoded (PyInt 1))).
  unfold example_document. cbn [json_loads tree_codec].
  now rewrite insert_insert_eq.
Defined.

(** ** Preamble decoding *)

Section Preamble.
Context {builtins : Builtins}.
Import DS4024_SCPI.

Lemma next_float_ok fields q rest :
  next_float fields = Ok (q, rest) → ∃ f, fields = f :: rest ∧ float f = Some q.
Proof.
  unfold next_float. destruct fields as [|f fields]; [discriminate|].
  destruct (float f) as [q'|] eqn:Hf; [|discriminate].
  intros [= ? ?]; subst. eauto.
Qed.

Lemma next_float_cons f rest q :
  float f = Some q → next_float (f :: rest) = Ok (q, rest).
Proof. intros Hf. unfold next_float. now rewrite Hf. Qed.

Lemma next_float_error fields e : next_float fields = Raise e → e = ValueError.
Proof.
  unfold next_float. destruct fields as [|f fields]; [congruence|].
  destruct (float f); congruence.
Qed.

#[local] Arguments next_float : simpl never.

Lemma parse_preamble_ok_inv s d :
  _parse_preamble s = Ok d →
  ∃ f0 f1 f2 f3 f4 f5 f6 f7 f8 f9 q0 q1 q2 q3 q4 q5 q6 q7 q8 q9,
    split "," s = [f0; f1; f2; f3; f4; f5; f6; f7; f8; f9] ∧
    Forall2 (λ f q, float f = Some q)
      [f0; f1; f2; f3; f4; f5; f6; f7; f8; f9]
      [q0; q1; q2; q3; q4; q5; q6; q7; q8; q9].
Proof.
  unfold _parse_preamble. generalize (split "," s) as fields. intros fields.
  repeat match goal with
         | |- context [next_float ?l] =>
             let E := fresh "E" in
             destruct (next_float l) as [[? ?]|] eqn:E; simpl; [|discriminate];
             apply next_float_ok in E as (? & -> & ?)
         end.
  match goal with |- context [match ?l with [] => _ | _ :: _ => _ end] =>
    destruct l; [|discriminate] end.
  intros _. do 20 eexists. split; [reflexivity|].
  repeat constructor; eassumption.
Qed.

Lemma parse_preamble_error s e : _parse_preamble s = Raise e → e = ValueError.
Proof.
  unfold _parse_preamble. generalize (split "," s) as fields. intros fields.
  repeat match goal with
         | |- context [next_float ?l] =>
             let E := fresh "E" in
             destruct (next_float l) as [[? ?]|] eqn:E; simpl;
             [|intros [= <-]; now apply next_float_error in E]
         end.
  match goal with |- context [match ?l with [] => _ | _ :: _ => _ end] =>
    destruct l; congruence end.
Qed.

(** C6: a line of exactly ten comma-separated fields that [float]
    accepts decodes to the preamble that holds their values under
    [format], [mode], [n_points], [n_avgs], [x_step], [x_origin],
    [x_reference], [y_step], [y_origin] and [y_reference], in that
    order; a line with fewer or more than ten fields, or with a field
    that [float] refuses, is rejected with [ValueError]. *)
Theorem preamble_decoding :
  (∀ s f0 f1 f2 f3 f4 f5 f6 f7 f8 f9 q0 q1 q2 q3 q4 q5 q6 q7 q8 q9,
     split "," s = [f0; f1; f2; f3; f4; f5; f6; f7; f8; f9] →
     Forall2 (λ f q, float f = Some q)
       [f0; f1; f2; f3; f4; f5; f6; f7; f8; f9]
       [q0; q1; q2; q3; q4; q5; q6; q7; q8; q9] →
     _parse_preamble s
     = Ok (<["format" := PyNum q0]> (<["mode" := PyNum q1]> (
           <["n_points" := PyNum q2]> (<["n_avgs" := PyNum q3]> (
           <["x_step" := PyNum q4]> (<["x_origin" := PyNum q5]> (
           <["x_reference" := PyNum q6]> (<["y_step" := PyNum q7]> (
           <["y_origin" := PyNum q8]> (<["y_reference" := PyNum q9]> ∅))))))))))) ∧
  (∀ s, List.length (split "," s) ≠ 10%nat → _parse_preamble s = Raise ValueError) ∧
  (∀ s f, f ∈ split "," s → float f = None → _parse_preamble s = Raise ValueError).
Proof.
  split; [|split].
  - intros s f0 f1 f2 f3 f4 f5 f6 f7 f8 f9 q0 q1 q2 q3 q4 q5 q6 q7 q8 q9 Hs Hq.
    unfold _parse_preamble. rewrite Hs.
    repeat match goal with
           | H : Forall2 _ (_ :: _) _ |- _ =>
               apply Forall2_cons_1 in H as [? H]
           end.
    repeat (erewrite next_float_cons by eassumption; simpl).
    reflexivity.
  - intros s Hlen. destruct (_parse_preamble s) as [d|e] eqn:E.
    + apply parse_preamble_ok_inv in E.
      destruct E as (?&?&?&?&?&?&?&?&?&?&?&?&?&?&?&?&?&?&?&?& Hs & _).
      rewrite Hs in Hlen. now contradict Hlen.
    + apply parse_preamble_error in E. now subst.
  - intros s f Hin Hf. destruct (_parse_preamble s) as [d|e] eqn:E.
    + apply parse_preamble_ok_inv in E.
      destruct E as (?&?&?&?&?&?&?&?&?&?&?&?&?&?&?&?&?&?&?&?& Hs & Hq).
      rewrite Hs in Hin.
      repeat match goal with
             | H : Forall2 _ (_ :: _) _ |- _ =>
                 apply Forall2_cons_1 in H as [? H]
             end.
      repeat match goal with
             | H : _ ∈ _ :: _ |- _ => apply elem_of_cons in H as [-> | H]
             end; try congruence.
      now apply elem_of_nil in Hin.
    + apply parse_preamble_error in E. now subst.
Qed.
End Preamble.

Lemma preamble_decoding_witness :
  DS4024_SCPI._parse_preamble (builtins := decimal_builtins)
    "0,0,1400,1,1e-06,-0.0007,0,0.04,5,127" = Ok example_preamble ∧
  DS4024_SCPI._parse_preamble (builtins := decimal_builtins)
    "0,0,1400" = Raise ValueError ∧
  DS4024_SCPI._parse_preamble (builtins := decimal_builtins)
    "0,0,1400,1,1e-06,-0.0007,0,0.04,volts,127" = Raise ValueError.
Proof.
  destruct (preamble_decoding (builtins := decimal_builtins)) as (Hok & Hlen & Hnum).
  split; [|split].
  - apply (Hok _ "0" "0" "1400" "1" "1e-06" "-0.0007" "0" "0.04" "5" "127"
             0 0 1400 1 (1 # 1000000) (-7 # 10000) 0 (4 # 100) 5 127)%Q.
    + reflexivity.
    + repeat constructor.
  - apply Hlen. vm_compute. lia.
  - apply (Hnum _ "volts"); [|reflexivity].
    vm_compute. repeat first [apply list_elem_of_here | apply list_elem_of_further].
Defined.

(** ** Settings capture *)

Section Capture.
Context {builtins : Builtins} {numerics : Numerics}.
Context {Scope : Type} {transport : Transport Scope}.
Import DS4024_SCPI.

(** One query of [_fetch_settings], spelled out. *)
Lemma cmd_line (cmdline : string) (w : world Scope) :
  _cmd cmdline RET_LINE w =
    let '(r, i) := instrument_ask (strip cmdline) (instrument w) in
    (r, World i (journal w ++ [Asked (strip cmdline)])%list).
Proof. reflexivity. Qed.

(** The Settings Fetcher sends the queries of its parameter list in order
    and nothing else; it stops at the first one that raises; when it
    returns, all were sent and the mapping has a reply for each. *)
Lemma fetch_settings_loop_spec prefix settings (acc : gmap string string)
    (w w' : world Scope) r :
  fetch_settings_loop prefix settings acc w = (r, w') →
  ∃ issued,
    journal w' = (journal w ++ issued)%list ∧
    issued `prefix_of` settings_queries prefix settings ∧
    ∀ res, r = Ok res →
      issued = settings_queries prefix settings ∧
      dom res = dom acc ∪ list_to_set settings.
Proof.
  revert acc w. induction settings as [|s settings IH]; intros acc w.
  - cbn. intros [= <- <-]. exists []. rewrite app_nil_r.
    split; [reflexivity|]. split; [reflexivity|].
    intros res [= <-]. split; [reflexivity|]. set_solver.
  - cbn [fetch_settings_loop]. unfold mbind, scpi_bind. rewrite cmd_line.
    destruct (instrument_ask _ (instrument w)) as [[reply|e] i].
    + intros Hloop. apply IH in Hloop as (issued & Hj & Hp & Hres).
      cbn [journal] in Hj.
      exists (Asked (strip (":" ++ prefix ++ ":" ++ s ++ "?")) :: issued).
      split; [now rewrite Hj, <- app_assoc|].
      split; [now apply prefix_cons|].
      intros res Hr. destruct (Hres res Hr) as [-> Hdom].
      split; [reflexivity|]. rewrite Hdom, dom_insert_L. set_solver.
    + intros [= <- <-].
      exists [Asked (strip (":" ++ prefix ++ ":" ++ s ++ "?"))].
      split; [reflexivity|]. split; [apply prefix_cons, prefix_nil|].
      intros res [=].
Qed.

Lemma trigger_edge_names :
  trigger_subfam_settings !! "EDGE" = Some ["LEV"; "SLOP"; "SOUR"].
Proof. reflexivity. Qed.

(** C9: capturing the channel settings of ["FFT"] raises the
    not-implemented exception and leaves the world as it was: the
    instrument is not called and the journal gains no entry. *)
Theorem fft_not_implemented (w : world Scope) :
  _fetch_channel_settings "FFT" w
  = (Raise (PyException "FFT Settings capture not yet implemented"), w).
Proof. reflexivity. Qed.

(** C7: when the first phase of the trigger capture has returned the
    mapping [top] with ["EDGE"] under [MODE], the capture continues with
    the Settings Fetcher on the prefix [TRIG:EDGE] and the parameters
    [LEV], [SLOP], [SOUR], and returns [top] with the fetched mapping
    under the key ["EDGE"].  That second phase sends the three queries
    [:TRIG:EDGE:LEV?], [:TRIG:EDGE:SLOP?], [:TRIG:EDGE:SOUR?] in this
    order and nothing else (a query that raises ends the capture), and
    the mapping it returns has exactly the keys [LEV], [SLOP], [SOUR]. *)
Theorem edge_dispatch (w w1 : world Scope) (top : gmap string string) :
  _fetch_settings "TRIG" trigger_settings_names w = (Ok top, w1) →
  top !! "MODE" = Some "EDGE" →
  _fetch_trigger_settings w =
    match _fetch_settings "TRIG:EDGE" ["LEV"; "SLOP"; "SOUR"] w1 with
    | (Ok sub, w2) =>
        (Ok (<["EDGE" := PyDict (PyStr <$> sub)]> (PyStr <$> top)), w2)
    | (Raise e, w2) => (Raise e, w2)
    end ∧
  ∃ issued,
    journal (_fetch_settings "TRIG:EDGE" ["LEV"; "SLOP"; "SOUR"] w1).2
    = (journal w1 ++ issued)%list ∧
    issued `prefix_of`
      [Asked ":TRIG:EDGE:LEV?"; Asked ":TRIG:EDGE:SLOP?"; Asked ":TRIG:EDGE:SOUR?"] ∧
    ∀ sub, (_fetch_settings "TRIG:EDGE" ["LEV"; "SLOP"; "SOUR"] w1).1 = Ok sub →
      issued = [Asked ":TRIG:EDGE:LEV?"; Asked ":TRIG:EDGE:SLOP?"; Asked ":TRIG:EDGE:SOUR?"] ∧
      dom sub = {[ "LEV"; "SLOP"; "SOUR" ]}.
Proof.
  intros Htop Hmode. split.
  - unfold _fetch_trigger_settings, mbind at 1, scpi_bind at 1.
    rewrite Htop. unfold lift, getitem, mbind, scpi_bind.
    rewrite Hmode. simpl. rewrite trigger_edge_names. simpl.
    change ("TRIG:" ++ "EDGE") with "TRIG:EDGE".
    destruct (_fetch_settings "TRIG:EDGE" ["LEV"; "SLOP"; "SOUR"] w1) as [[sub|e] w2];
      reflexivity.
  - destruct (_fetch_settings "TRIG:EDGE" ["LEV"; "SLOP"; "SOUR"] w1) as [r w2] eqn:E.
    apply fetch_settings_loop_spec in E as (issued & Hj & Hp & Hres).
    exists issued. split; [exact Hj|]. split; [exact Hp|].
    intros sub Hsub. destruct (Hres sub Hsub) as [-> Hdom].
    split; [reflexivity|]. rewrite Hdom. set_solver.
Qed.

(** C3: when the preamble fetched for a channel has a [mode] other than
    0, [fetch_waveform] raises [NameError] for the name [mode] that the
    warning message refers to; it stops in the world reached after the
    preamble query, so no warning is issued, the data block is not
    asked for and no Waveform is returned. *)
Theorem nonzero_mode_raises (channel : string) (trigger_settings : option pyval)
    (w w1 w2 : world Scope) (preamble : gmap string pyval) (mode : pyval) :
  _set_channel channel w = (Ok (), w1) →
  _fetch_preamble w1 = (Ok preamble, w2) →
  preamble !! "mode" = Some mode →
  py_ne_zero mode = true →
  fetch_waveform channel trigger_settings w = (Raise (NameError "mode"), w2).
Proof.
  intros Hsel Hpre Hmode Hnz.
  unfold fetch_waveform, mbind at 1, scpi_bind at 1. rewrite Hsel.
  unfold mbind at 1, scpi_bind at 1. rewrite Hpre.
  unfold mbind at 1, scpi_bind at 1, lift at 1, getitem. rewrite Hmode.
  unfold mbind at 1, scpi_bind at 1. rewrite Hnz.
  reflexivity.
Qed.
End Capture.

Lemma edge_dispatch_witness :
  ∃ top w1,
    DS4024_SCPI._fetch_settings (transport := bench_transport)
      "TRIG" DS4024_SCPI.trigger_settings_names bench_world = (Ok top, w1) ∧
    top !! "MODE" = Some "EDGE" ∧
    DS4024_SCPI._fetch_trigger_settings (transport := bench_transport) bench_world =
      match DS4024_SCPI._fetch_settings (transport := bench_transport)
              "TRIG:EDGE" ["LEV"; "SLOP"; "SOUR"] w1 with
      | (Ok sub, w2) =>
          (Ok (<["EDGE" := PyDict (PyStr <$> sub)]> (PyStr <$> top)), w2)
      | (Raise e, w2) => (Raise e, w2)
      end.
Proof.
  pose (r := DS4024_SCPI._fetch_settings (transport := bench_transport)
               "TRIG" DS4024_SCPI.trigger_settings_names bench_world).
  exists (match r.1 with Ok top => top | Raise _ => ∅ end), r.2.
  split; [reflexivity|]. split; [reflexivity|].
  exact (proj1 (edge_dispatch (transport := bench_transport)
                  bench_world _ _ eq_refl eq_refl)).
Defined.

Lemma nonzero_mode_raises_witness :
  (DS4024_SCPI.fetch_waveform (builtins := decimal_builtins)
     (numerics := plain_numerics)
     (transport := bench_transport) "CHAN1" None bench_world_mode1).1
  = Raise (NameError "mode").
Proof.
  pose (w1 := (DS4024_SCPI._set_channel (transport := bench_transport)
                 "CHAN1" bench_world_mode1).2).
  pose (w2 := (DS4024_SCPI._fetch_preamble (builtins := decimal_builtins)
                 (transport := bench_transport) w1).2).
  now rewrite (nonzero_mode_raises (builtins := decimal_builtins)
                 (numerics := plain_numerics) (transport := bench_transport)
                 "CHAN1" None bench_world_mode1 w1 w2 example_preamble_mode1
                 (PyNum 1) eq_refl eq_refl eq_refl eq_refl).
Defined.

(** * Further properties of the code *)

(** ** The raw block and the derived series *)

Section Series.
Context {numerics : Numerics}.

(** X1: the constructor takes the first eleven bytes of the block for
    the header and the last byte for the terminator without looking at
    them: the samples are the bytes in between, and two blocks that
    frame the same samples differently give the same sample, time and
    voltage series. *)
Theorem framing_not_inspected (p : gmap string pyval)
    (header header' samples : list byte) (terminator terminator' : byte)
    (cs idn ts v : pyval) (w : Waveform.obj) :
  List.length header = 11%nat → List.length header' = 11%nat →
  Waveform.__init__ p (header ++ samples ++ [terminator]) cs idn ts v = Ok w →
  Waveform.readings w = samples ∧
  ∃ w', Waveform.__init__ p (header' ++ samples ++ [terminator']) cs idn ts v = Ok w' ∧
        Waveform.readings w' = samples ∧
        Waveform.t w' = Waveform.t w ∧ Waveform.y w' = Waveform.y w.
Proof.
  intros Hh Hh'. unfold Waveform.__init__.
  rewrite (py_slice_framed header), (py_slice_framed header') by done.
  destruct (getitem p "format") as [fmt|]; cbn; [|discriminate].
  destruct (py_ne_zero fmt); [discriminate|].
  destruct (getitem p "x_step") as [dx|]; cbn; [|discriminate].
  destruct (getitem p "x_origin") as [x0|]; cbn; [|discriminate].
  destruct (getitem p "y_step") as [dy|]; cbn; [|discriminate].
  destruct (getitem p "y_origin") as [yo|]; cbn; [|discriminate].
  destruct (getitem p "y_reference") as [yr|]; cbn; [|discriminate].
  destruct (py_sub yo yr) as [y0|]; cbn; [|discriminate].
  destruct (py_inv dx) as [Fs|]; cbn; [|discriminate].
  destruct (time_axis x0 dx _) as [t|]; cbn; [|discriminate].
  destruct (voltages y0 _ dy) as [y|]; cbn; [|discriminate].
  intros [= <-]. split; [reflexivity|].
  eexists. split; [reflexivity|]. repeat split.
Qed.

(** X2: with float vertical entries and a step [d] that is not
    negative, every voltage of a constructed Waveform lies between the
    voltages of the sample bytes 0 and 255, that is between
    [(o - r) * d] and [(255 + (o - r)) * d]. *)
Theorem voltage_range (p : gmap string pyval) (raw : list byte)
    (cs idn ts v : pyval) (w : Waveform.obj) (d o r : Q) (i : nat) (u : Q) :
  Waveform.__init__ p raw cs idn ts v = Ok w →
  p !! "y_step" = Some (PyNum d) →
  p !! "y_origin" = Some (PyNum o) →
  p !! "y_reference" = Some (PyNum r) →
  (0 <= d)%Q →
  Waveform.y w !! i = Some u →
  ((o - r) * d <= u)%Q ∧ (u <= (255 + (o - r)) * d)%Q.
Proof.
  intros Hw Hd Ho Hr Hpos Hu.
  rewrite (init_voltage _ _ _ _ _ _ _ _ _ _ Hw Hd Ho Hr), list_lookup_fmap in Hu.
  destruct (Waveform.readings w !! i) as [s|]; [|discriminate].
  injection Hu as <-. destruct (byte_to_Q_range s) as [H0 H255].
  split; apply Qmult_le_compat_r; try assumption.
  - rewrite <- (Qplus_0_r (o - r)) at 1. now apply Qplus_le_r.
  - rewrite (Qplus_comm 255). now apply Qplus_le_r.
Qed.


End Series.

Lemma framing_not_inspected_witness :
  ∃ w, Waveform.__init__ (numerics := plain_numerics) example_preamble
         (block_header ++ [x78; x82] ++ [x0a])
         no_settings (PyStr "") no_settings (PyInt 1) = Ok w
       ∧ Waveform.readings w = [x78; x82].
Proof.
  exists example_waveform. split; [exact example_waveform_init|].
  exact (proj1 (framing_not_inspected example_preamble block_header
                  (repeat x00 11) [x78; x82] x0a x00
                  no_settings (PyStr "") no_settings (PyInt 1) example_waveform
                  eq_refl eq_refl example_waveform_init)).
Defined.

Lemma voltage_range_witness :
  ∃ w u, Waveform.__init__ (numerics := plain_numerics) example_preamble short_block
           no_settings (PyStr "") no_settings (PyInt 1) = Ok w
         ∧ Waveform.y w !! 1%nat = Some u
         ∧ ((5 - 127) * (4 # 100) <= u)%Q ∧ (u <= (255 + (5 - 127)) * (4 # 100))%Q.
Proof.
  exists example_waveform, ((5 - 127 + byte_to_Q x82) * (4 # 100))%Q.
  split; [exact example_waveform_init|]. split; [reflexivity|].
  refine (voltage_range example_preamble short_block
            no_settings (PyStr "") no_settings (PyInt 1) example_waveform
            (4 # 100) 5 127 1 _ example_waveform_init eq_refl eq_refl eq_refl _ eq_refl).
  discriminate.
Defined.

(** ** From the preamble line to the Waveform *)

Section Decoded.
Context {builtins : Builtins} {numerics : Numerics}.
Import DS4024_SCPI.

#[local] Arguments next_float : simpl never.

Lemma parse_preamble_ok_shape s p :
  _parse_preamble s = Ok p →
  ∃ q0 q1 q2 q3 q4 q5 q6 q7 q8 q9,
    p = <["format" := PyNum q0]> (<["mode" := PyNum q1]> (
        <["n_points" := PyNum q2]> (<["n_avgs" := PyNum q3]> (
        <["x_step" := PyNum q4]> (<["x_origin" := PyNum q5]> (
        <["x_reference" := PyNum q6]> (<["y_step" := PyNum q7]> (
        <["y_origin" := PyNum q8]> (<["y_reference" := PyNum q9]> ∅))))))))).
Proof.
  unfold _parse_preamble. generalize (split "," s) as fields. intros fields.
  repeat match goal with
         | |- context [next_float ?l] =>
             destruct (next_float l) as [[? ?]|]; simpl; [|discriminate]
         end.
  match goal with |- context [match ?l with [] => _ | _ :: _ => _ end] =>
    destruct l; [|discriminate] end.
  intros [= <-]. do 10 eexists. reflexivity.
Qed.

End Decoded.


(** ** Deserialising a Waveform document *)

Section Documents.
Context {numerics : Numerics}.

Lemma call_init_inv dp raw w :
  Waveform.call_init dp raw = Ok w →
  dom (delete "rawbuf" dp) ⊆ Waveform.init_params ∧
  ∃ p cs idn ts,
    delete "rawbuf" dp !! "preamble" = Some (PyDict p) ∧
    delete "rawbuf" dp !! "channel_settings" = Some cs ∧
    delete "rawbuf" dp !! "idn_line" = Some idn ∧
    delete "rawbuf" dp !! "trigger_settings" = Some ts ∧
    Waveform.__init__ p raw cs idn ts
      (default (PyInt 1) (delete "rawbuf" dp !! "version")) = Ok w.
Proof.
  unfold Waveform.call_init. set (kw := delete "rawbuf" dp).
  destruct (bool_decide (dom kw ⊆ Waveform.init_params)) eqn:Hdom; [|discriminate].
  apply bool_decide_eq_true in Hdom.
  destruct (kw !! "preamble") as [[| | |p]|]; try discriminate.
  all: destruct (kw !! "channel_settings") as [cs|]; try discriminate.
  all: destruct (kw !! "idn_line") as [idn|]; try discriminate.
  all: destruct (kw !! "trigger_settings") as [ts|]; try discriminate.
  intros Hw. split; [exact Hdom|]. exists p, cs, idn, ts. auto.
Qed.

(** X5: a Waveform that [_from_json_dict] returns holds what the
    document says: its preamble, settings and identity are the
    document's entries, its raw block is the decoding of [buf_b64], its
    version is the document's, or 1 when the document has none; and the
    document has no entry besides these six and [rawbuf]. *)
Theorem decoded_waveform_fields (d : gmap string pyval) (w : Waveform.obj) :
  Waveform._from_json_dict (PyDict d) = Ok w →
  d !! "preamble" = Some (PyDict (Waveform.preamble w)) ∧
  d !! "channel_settings" = Some (Waveform.channel_settings w) ∧
  d !! "idn_line" = Some (Waveform.idn_line w) ∧
  d !! "trigger_settings" = Some (Waveform.trigger_settings w) ∧
  (∃ b64, d !! "buf_b64" = Some b64 ∧ base64.b64decode b64 = Ok (Waveform.rawbuf w)) ∧
  Waveform.version w = default (PyInt 1) (d !! "version") ∧
  dom d ⊆ {[ "preamble"; "channel_settings"; "idn_line"; "trigger_settings";
             "version"; "buf_b64"; "rawbuf" ]} ∧
  constructed w.
Proof.
  unfold Waveform._from_json_dict, getitem.
  destruct (d !! "buf_b64") as [b64|] eqn:Eb; [|discriminate]. simpl.
  destruct (base64.b64decode b64) as [raw|] eqn:Er; [|discriminate]. simpl.
  intros Hw. apply call_init_inv in Hw
    as (Hdom & p & cs & idn & ts & Hp & Hcs & Hidn & Hts & Hw).
  rewrite !lookup_delete_ne in Hp, Hcs, Hidn, Hts, Hw by done.
  destruct (init_fields _ _ _ _ _ _ _ Hw) as (-> & -> & -> & -> & -> & ->).
  repeat split; try assumption.
  - eauto.
  - intros k Hk. destruct (decide (k = "rawbuf")) as [->|]; [set_solver|].
    destruct (decide (k = "buf_b64")) as [->|]; [set_solver|].
    assert (k ∈ dom (delete "rawbuf" (delete "buf_b64" d))) as Hk'.
    { rewrite !dom_delete_L. set_solver. }
    apply Hdom in Hk'. unfold Waveform.init_params in Hk'. set_solver.
  - unfold constructed. eauto 10.
Qed.


(** X6: what makes [_from_json_dict] reject a document that is a
    mapping: no [buf_b64] entry raises [KeyError]; with a [buf_b64]
    that decodes, an entry that names no parameter of the constructor,
    or the lack of one of [preamble], [channel_settings], [idn_line]
    and [trigger_settings], raises [TypeError]. *)
Theorem malformed_document_rejected (d : gmap string pyval) :
  (d !! "buf_b64" = None →
     Waveform._from_json_dict (PyDict d) = Raise (KeyError "buf_b64")) ∧
  (∀ b64 raw k,
     d !! "buf_b64" = Some b64 → base64.b64decode b64 = Ok raw →
     (k ∈ dom d ∧ k ∉ ({[ "preamble"; "channel_settings"; "idn_line";
                          "trigger_settings"; "version"; "buf_b64"; "rawbuf" ]}
                        : gset string)
      ∨ k ∈ ({[ "preamble"; "channel_settings"; "idn_line"; "trigger_settings" ]}
              : gset string) ∧ d !! k = None) →
     Waveform._from_json_dict (PyDict d) = Raise TypeError).
Proof.
  split.
  - intros Hb. unfold Waveform._from_json_dict, getitem. now rewrite Hb.
  - intros b64 raw k Hb Hr Hk.
    unfold Waveform._from_json_dict, getitem. rewrite Hb. simpl. rewrite Hr. simpl.
    unfold Waveform.call_init. set (kw := delete "rawbuf" (delete "buf_b64" d)).
    destruct (bool_decide (dom kw ⊆ Waveform.init_params)) eqn:Hdom; [|reflexivity].
    apply bool_decide_eq_true in Hdom.
    destruct Hk as [[Hin Hout]|[Hin Hnone]].
    + exfalso. assert (k ∈ dom kw) as Hk.
      { unfold kw. rewrite !dom_delete_L. set_solver. }
      apply Hdom in Hk. unfold Waveform.init_params in Hk. set_solver.
    + assert (kw !! k = None) as Hkw.
      { unfold kw. rewrite !lookup_delete_ne by set_solver. exact Hnone. }
      assert (k = "preamble" ∨ k = "channel_settings" ∨ k = "idn_line"
              ∨ k = "trigger_settings") as Hcases by set_solver.
      destruct Hcases as [-> | [-> | [-> | ->] ] ]; rewrite Hkw.
      * reflexivity.
      * now destruct (kw !! "preamble").
      * destruct (kw !! "preamble"); [|reflexivity].
        now destruct (kw !! "channel_settings").
      * destruct (kw !! "preamble"); [|reflexivity].
        destruct (kw !! "channel_settings"); [|reflexivity].
        now destruct (kw !! "idn_line").
Qed.


(** X7: an entry [rawbuf] of the document never reaches the object:
    the block decoded from [buf_b64] replaces it, so the document with
    such an entry is deserialised exactly like the one without. *)
Theorem document_rawbuf_ignored (d : gmap string pyval) (x : pyval) :
  Waveform._from_json_dict (PyDict (<["rawbuf" := x]> d))
  = Waveform._from_json_dict (PyDict (delete "rawbuf" d)).
Proof.
  unfold Waveform._from_json_dict, getitem.
  rewrite lookup_insert_ne, lookup_delete_ne by done.
  destruct (d !! "buf_b64") as [b64|]; [|reflexivity]. simpl.
  destruct (base64.b64decode b64) as [raw|]; [|reflexivity]. simpl.
  unfold Waveform.call_init.
  replace (delete "rawbuf" (delete "buf_b64" (<["rawbuf" := x]> d)))
    with (delete "rawbuf" (delete "buf_b64" (delete "rawbuf" d))); [reflexivity|].
  apply map_eq. intros k.
  repeat (rewrite ?lookup_delete, ?lookup_insert; repeat case_decide; subst; try done).
Qed.

(** ** Bundles and their documents *)

End Documents.

Lemma decoded_waveform_fields_witness :
  ∃ w, Waveform._from_json_dict (numerics := plain_numerics)
         (PyDict (example_document (PyInt 2))) = Ok w
       ∧ Waveform.version w = PyInt 2.
Proof.
  exists (Waveform.with_version (PyInt 2) example_waveform).
  split; [exact (example_document_decoded (PyInt 2))|].
  destruct (decoded_waveform_fields _ _ (example_document_decoded (PyInt 2)))
    as (_ & _ & _ & _ & _ & Hv & _).
  rewrite Hv. reflexivity.
Defined.

Lemma malformed_document_rejected_witness :
  Waveform._from_json_dict (numerics := plain_numerics)
    (PyDict (delete "buf_b64" (example_document (PyInt 1))))
  = Raise (KeyError "buf_b64") ∧
  Waveform._from_json_dict (numerics := plain_numerics)
    (PyDict (<["comment" := PyStr "bench 3"]> (example_document (PyInt 1))))
  = Raise TypeError.
Proof.
  split.
  - apply (proj1 (malformed_document_rejected _)). reflexivity.
  - apply (proj2 (malformed_document_rejected _)
             (PyStr "IzkwMDAwMDAwMDB4ggo=") short_block "comment").
    + reflexivity.
    + reflexivity.
    + left. split; [|unfold example_document; set_solver].
      apply elem_of_dom. eexists. reflexivity.
Defined.

(** ** Bundles and their documents *)

Lemma mapM_result_ok {A B} (F : A → result B) l k :
  Forall2 (λ x y, F x = Ok y) l k → mapM F l = Ok k.
Proof.
  induction 1 as [|x y l k Hx _ IH]; [reflexivity|].
  cbn. rewrite Hx. cbn. rewrite IH. reflexivity.
Qed.

Lemma mapM_result_inv {A B} (F : A → result B) l k :
  mapM F l = Ok k → Forall2 (λ x y, F x = Ok y) l k.
Proof.
  revert k. induction l as [|x l IH]; intros k.
  - intros [= <-]. constructor.
  - cbn. destruct (F x) as [y|] eqn:Hx; [|discriminate]. cbn.
    destruct (mapM F l) as [k'|]; [|discriminate]. cbn.
    intros [= <-]. constructor; auto.
Qed.

Lemma mapM_result_raise {A B} (F : A → result B) l x e :
  x ∈ l → F x = Raise e → ∃ e', mapM F l = Raise e'.
Proof.
  intros Hin Hx. induction l as [|a l IH]; [by apply elem_of_nil in Hin|].
  cbn. destruct (F a) as [y|ea] eqn:Ha; [|eauto]. cbn.
  apply elem_of_cons in Hin as [->|Hin]; [congruence|].
  destruct (IH Hin) as [e' ->]. cbn. eauto.
Qed.

Section Bundles.
Context {numerics : Numerics}.

Lemma decode_waveforms_json_dict (wfs : gmap string Waveform.obj) :
  (∀ k wf, wfs !! k = Some wf → constructed wf) →
  WaveformBundle.decode_waveforms ((λ v, PyDict (Waveform._json_dict v)) <$> wfs)
  = Ok wfs.
Proof.
  intros Hc. unfold WaveformBundle.decode_waveforms.
  rewrite map_to_list_fmap.
  erewrite (mapM_result_ok _ _ (map_to_list wfs)).
  - cbn. now rewrite list_to_map_to_list.
  - assert (Forall (λ kv, constructed kv.2) (map_to_list wfs)) as Hall.
    { apply Forall_forall. intros [k wf] Hin.
      apply elem_of_map_to_list in Hin. eapply Hc, Hin. }
    induction Hall as [|[k wf] l Hwf _ IH]; [constructor|].
    constructor; [|exact IH].
    destruct Hwf as (p & raw & cs & idn & ts & v & Hw). cbn [snd] in Hw.
    unfold prod_map. cbn [fst snd id].
    now rewrite (from_json_dict_json_dict _ _ _ _ _ _ _ Hw).
Qed.

Lemma decode_entries_inv l ks :
  Forall2 (λ (x : string * pyval) (y : string * Waveform.obj),
             pair x.1 <$> Waveform._from_json_dict x.2 = Ok y) l ks →
  ks.*1 = l.*1 ∧
  ∀ k wf, (k, wf) ∈ ks → ∃ doc, (k, doc) ∈ l ∧ Waveform._from_json_dict doc = Ok wf.
Proof.
  induction 1 as [|[k0 doc] [k' wf'] l ks Hx _ [IHk IH]].
  - split; [reflexivity|]. intros k wf Hk. by apply elem_of_nil in Hk.
  - cbn in Hx. destruct (Waveform._from_json_dict doc) as [wf0|] eqn:Hd; [|discriminate].
    injection Hx as <- <-. split; [cbn; now rewrite IHk|].
    intros k wf Hk. apply elem_of_cons in Hk as [[= -> ->]|Hk].
    + exists doc. split; [left|exact Hd].
    + destruct (IH k wf Hk) as (doc' & Hin & Hdoc). exists doc'. split; [now right|exact Hdoc].
Qed.

Lemma decode_waveforms_inv (wd : gmap string pyval) (wfs : gmap string Waveform.obj) :
  WaveformBundle.decode_waveforms wd = Ok wfs →
  dom wfs = dom wd ∧
  ∀ k wf, wfs !! k = Some wf →
    ∃ doc, wd !! k = Some doc ∧ Waveform._from_json_dict doc = Ok wf.
Proof.
  unfold WaveformBundle.decode_waveforms.
  destruct (mapM _ (map_to_list wd)) as [ks|] eqn:E; [|discriminate].
  cbn. intros [= <-]. apply mapM_result_inv, decode_entries_inv in E as [Hkeys Hin].
  split.
  - rewrite dom_list_to_map_L, Hkeys.
    rewrite <- (list_to_map_to_list wd) at 2. now rewrite dom_list_to_map_L.
  - intros k wf Hk. apply elem_of_list_to_map in Hk.
    2:{ rewrite Hkeys. apply NoDup_fst_map_to_list. }
    destruct (Hin k wf Hk) as (doc & Hdoc & Hwf).
    exists doc. split; [now apply elem_of_map_to_list|exact Hwf].
Qed.

Lemma bundle_json_dict_round_trip (b : WaveformBundle.obj) :
  (∀ k wf, WaveformBundle.waveforms b !! k = Some wf → constructed wf) →
  WaveformBundle._from_json_dict (PyDict (WaveformBundle._json_dict b)) = Ok b.
Proof.
  intros Hc. destruct b as [ver names wfs title].
  unfold WaveformBundle._from_json_dict, WaveformBundle._json_dict, getitem.
  cbn [WaveformBundle.version WaveformBundle.channel_names
       WaveformBundle.waveforms WaveformBundle.title].
  rewrite lookup_insert_eq. unfold mbind, result_bind.
  rewrite (decode_waveforms_json_dict wfs Hc).
  rewrite delete_insert_eq.
  rewrite delete_id by (by simplify_map_eq).
  rewrite bool_decide_eq_true_2.
  - simplify_map_eq. reflexivity.
  - rewrite !dom_insert_L, dom_empty_L. unfold WaveformBundle.init_params. set_solver.
Qed.

(** X8: a bundle whose waveforms the constructor built serialises to a
    document, and deserialising that document gives the same bundle
    back: its title, channel names, version and every waveform with its
    derived series. *)
Theorem bundle_round_trip {doc : Type} (codec : JsonCodec doc)
    (codec_ok : JsonCodecOk codec) (b : WaveformBundle.obj) :
  (∀ k wf, WaveformBundle.waveforms b !! k = Some wf → constructed wf) →
  ∃ s : doc, WaveformBundle.to_jsons b = Ok s ∧ WaveformBundle.from_jsons s = Ok b.
Proof.
  intros Hc.
  destruct (json_loads_dumps (PyDict (WaveformBundle._json_dict b))) as (s & Hd & Hl).
  exists s. split; [exact Hd|].
  unfold WaveformBundle.from_jsons. rewrite Hl. cbn.
  now apply bundle_json_dict_round_trip.
Qed.

(** X9: a bundle that [_from_json_dict] returns has one waveform for each
    entry of the document's [waveforms] mapping, under the same key, and
    each is what [Waveform._from_json_dict] makes of that entry. *)
Theorem decoded_bundle_waveforms (d : gmap string pyval) (b : WaveformBundle.obj) :
  WaveformBundle._from_json_dict (PyDict d) = Ok b →
  ∃ wd, d !! "waveforms" = Some (PyDict wd) ∧
    dom (WaveformBundle.waveforms b) = dom wd ∧
    (∀ k wf, WaveformBundle.waveforms b !! k = Some wf →
       ∃ doc, wd !! k = Some doc ∧ Waveform._from_json_dict doc = Ok wf) ∧
    WaveformBundle.version b = default (PyInt 1) (d !! "version").
Proof.
  unfold WaveformBundle._from_json_dict, getitem.
  destruct (d !! "waveforms") as [[| | |wd]|]; try discriminate. cbn.
  destruct (WaveformBundle.decode_waveforms wd) as [wfs|] eqn:E; [|discriminate]. cbn.
  destruct (bool_decide _); [|discriminate].
  destruct (delete "waveforms" d !! "title") as [title|]; [|discriminate].
  destruct (delete "waveforms" d !! "channel_names") as [names|]; [|discriminate].
  intros [= <-]. cbn. rewrite lookup_delete_ne by done.
  apply decode_waveforms_inv in E as [Hdom Hin].
  exists wd. repeat split; assumption.
Qed.

(** X10: there is no partial bundle: when one entry of the document's
    [waveforms] mapping is rejected by [Waveform._from_json_dict], the
    whole bundle document is rejected. *)
Theorem bundle_rejects_malformed_waveform (d wd : gmap string pyval)
    (k : string) (doc : pyval) (e : pyerror) :
  d !! "waveforms" = Some (PyDict wd) →
  wd !! k = Some doc →
  Waveform._from_json_dict doc = Raise e →
  ∃ e', WaveformBundle._from_json_dict (PyDict d) = Raise e'.
Proof.
  intros Hd Hk He. unfold WaveformBundle._from_json_dict, getitem.
  rewrite Hd. cbn. unfold WaveformBundle.decode_waveforms.
  destruct (mapM_result_raise
              (λ kv : string * pyval, pair kv.1 <$> Waveform._from_json_dict kv.2)
              (map_to_list wd) (k, doc) e) as [e' ->].
  - now apply elem_of_map_to_list.
  - cbn. now rewrite He.
  - cbn. eauto.
Qed.

End Bundles.

Lemma example_waveform_constructed : constructed (numerics := plain_numerics) example_waveform.
Proof.
  exists example_preamble, short_block, no_settings, (PyStr ""), no_settings, (PyInt 1).
  exact example_waveform_init.
Qed.

Lemma bundle_round_trip_witness :
  ∃ s : pyval,
    WaveformBundle.to_jsons (H := tree_codec) example_bundle = Ok s ∧
    WaveformBundle.from_jsons (numerics := plain_numerics) (H := tree_codec) s
    = Ok example_bundle.
Proof.
  apply (bundle_round_trip tree_codec tree_codec_ok example_bundle).
  intros k wf Hk. cbn in Hk.
  apply lookup_singleton_Some in Hk as [_ <-].
  exact example_waveform_constructed.
Defined.

Lemma example_bundle_document_decoded :
  WaveformBundle._from_json_dict (numerics := plain_numerics)
    (PyDict (example_bundle_document (PyInt 2)))
  = Ok (WaveformBundle.with_version (PyInt 2) example_bundle).
Proof. reflexivity. Qed.

Lemma decoded_bundle_waveforms_witness :
  ∃ b, WaveformBundle._from_json_dict (numerics := plain_numerics)
         (PyDict (example_bundle_document (PyInt 2))) = Ok b
       ∧ dom (WaveformBundle.waveforms b) = {[ "CHAN1" ]}
       ∧ WaveformBundle.version b = PyInt 2.
Proof.
  exists (WaveformBundle.with_version (PyInt 2) example_bundle).
  split; [exact example_bundle_document_decoded|].
  destruct (decoded_bundle_waveforms _ _ example_bundle_document_decoded)
    as (wd & Hwd & Hdom & _ & Hv).
  split.
  - rewrite Hdom. injection Hwd as <-. apply dom_singleton_L.
  - rewrite Hv. reflexivity.
Defined.

Lemma bundle_rejects_malformed_waveform_witness :
  ∃ e, WaveformBundle._from_json_dict (numerics := plain_numerics)
         (PyDict (<["waveforms" := PyDict {[ "CHAN1" := PyDict ∅ ]}]>
                    (example_bundle_document (PyInt 1)))) = Raise e.
Proof.
  apply (bundle_rejects_malformed_waveform _ {[ "CHAN1" := PyDict ∅ ]}
           "CHAN1" (PyDict ∅) (KeyError "buf_b64")); reflexivity.
Defined.

(** ** The instrument link: what is sent *)





Section Link.
Context {builtins : Builtins} {Scope : Type} {transport : Transport Scope}.
Import DS4024_SCPI.

Lemma bind_ok_inv {A B} (m : scpi Scope A) (f : A → scpi Scope B) w b w' :
  (m ≫= f) w = (Ok b, w') →
  ∃ a w1, m w = (Ok a, w1) ∧ f a w1 = (Ok b, w').
Proof.
  unfold mbind, scpi_bind. destruct (m w) as [[a|e] w1]; [eauto|discriminate].
Qed.



End Link.


(** ** Acquisition: what a capture can return *)

Section Acquisition.
Context {builtins : Builtins} {numerics : Numerics}.
Context {Scope : Type} {transport : Transport Scope}.
Import DS4024_SCPI.

Lemma load_name_mode :
  load_name fetch_waveform_names "mode" = Raise (NameError "mode").
Proof. reflexivity. Qed.

(** The steps that a returning [fetch_waveform] went through. *)
Lemma fetch_waveform_inv channel ots (w w' : world Scope) wf :
  fetch_waveform channel ots w = (Ok wf, w') →
  ∃ line p mode buf cset idn ts,
    _parse_preamble line = Ok p ∧
    p !! "mode" = Some mode ∧ py_ne_zero mode = false ∧
    channel ≠ "FFT" ∧
    (∀ t, ots = Some t → ts = t) ∧
    Waveform.__init__ p buf (PyDict cset) (PyStr idn) ts (PyInt 1) = Ok wf.
Proof.
  unfold fetch_waveform. intros H.
  apply bind_ok_inv in H as ([] & w1 & _ & H).
  apply bind_ok_inv in H as (p & w2 & Hpre & H).
  apply bind_ok_inv in H as (mode & w3 & Hmode & H).
  apply bind_ok_inv in H as ([] & w4 & Hwarn & H).
  apply bind_ok_inv in H as (buf & w5 & _ & H).
  apply bind_ok_inv in H as (cset & w6 & Hcset & H).
  apply bind_ok_inv in H as (idn & w7 & _ & H).
  apply bind_ok_inv in H as (ts & w8 & Hts & H).
  unfold lift in H. injection H as H _.
  unfold _fetch_preamble in Hpre.
  apply bind_ok_inv in Hpre as (line & w2' & _ & Hp).
  unfold lift in Hp. injection Hp as Hp _.
  unfold lift, getitem in Hmode.
  destruct (p !! "mode") as [m|] eqn:Em; [|discriminate].
  injection Hmode as -> _.
  exists line, p, mode, buf, cset, idn, ts.
  split; [exact Hp|]. split; [exact Em|]. split; [|split; [|split; [|exact H] ] ].
  - destruct (py_ne_zero mode); [|reflexivity].
    apply bind_ok_inv in Hwarn as (u & w3' & Hl & _).
    unfold lift in Hl. rewrite load_name_mode in Hl. discriminate.
  - intros ->. discriminate Hcset.
  - intros t ->. injection Hts as -> _. reflexivity.
Qed.

(** X13: a Waveform that [fetch_waveform] returns comes from a preamble
    line that the decoder accepted, with format 0 and mode 0, so all its
    scaling entries are floats and its series follow the float formulas
    whatever [Numerics] is; its version is 1, and its channel is not
    [FFT], for which no Waveform is ever returned. *)
Theorem captured_waveform (channel : string) (ots : option pyval)
    (w w' : world Scope) (wf : Waveform.obj) :
  fetch_waveform channel ots w = (Ok wf, w') →
  channel ≠ "FFT" ∧ Waveform.version wf = PyInt 1 ∧
  (∀ t, ots = Some t → Waveform.trigger_settings wf = t) ∧
  ∃ fmt mode dx x0 d o r,
    Waveform.preamble wf !! "format" = Some (PyNum fmt) ∧ (fmt == 0)%Q ∧
    Waveform.preamble wf !! "mode" = Some (PyNum mode) ∧ (mode == 0)%Q ∧
    Waveform.preamble wf !! "x_step" = Some (PyNum dx) ∧ ¬ (dx == 0)%Q ∧
    Waveform.preamble wf !! "x_origin" = Some (PyNum x0) ∧
    Waveform.preamble wf !! "y_step" = Some (PyNum d) ∧
    Waveform.preamble wf !! "y_origin" = Some (PyNum o) ∧
    Waveform.preamble wf !! "y_reference" = Some (PyNum r) ∧
    Waveform.Fs wf = (1 / dx)%Q ∧
    Waveform.t wf
    = (λ i, x0 + dx * i)%Q <$> arange (List.length (Waveform.readings wf)) ∧
    Waveform.y wf = (λ s, (o - r + byte_to_Q s) * d)%Q <$> Waveform.readings wf.
Proof.
  intros H. apply fetch_waveform_inv in H
    as (line & p & mode & buf & cset & idn & ts & Hp & Hm & Hz & Hc & Hts & Hw).
  apply parse_preamble_ok_shape in Hp
    as (q0 & q1 & q2 & q3 & q4 & q5 & q6 & q7 & q8 & q9 & Hp).
  assert (p !! "format" = Some (PyNum q0)) as Hf by (subst p; by simplify_map_eq).
  assert (p !! "mode" = Some (PyNum q1)) as Hm' by (subst p; by simplify_map_eq).
  assert (p !! "x_step" = Some (PyNum q4)) as Hdx by (subst p; by simplify_map_eq).
  assert (p !! "x_origin" = Some (PyNum q5)) as Hx0 by (subst p; by simplify_map_eq).
  assert (p !! "y_step" = Some (PyNum q7)) as Hd by (subst p; by simplify_map_eq).
  assert (p !! "y_origin" = Some (PyNum q8)) as Ho by (subst p; by simplify_map_eq).
  assert (p !! "y_reference" = Some (PyNum q9)) as Hr by (subst p; by simplify_map_eq).
  clear Hp. rewrite Hm' in Hm. injection Hm as <-.
  destruct (init_time _ _ _ _ _ _ _ _ _ Hw Hdx Hx0) as [HFs Ht].
  pose proof (init_voltage _ _ _ _ _ _ _ _ _ _ Hw Hd Ho Hr) as Hy.
  pose proof (init_inv _ _ _ _ _ _ _ Hw)
    as (fmt & dx & ? & ? & ? & ? & ? & Ef & Zf & Edx & _ & _ & _ & _ & _ & Hinv & _).
  rewrite Hf in Ef. injection Ef as <-. rewrite Hdx in Edx. injection Edx as <-.
  destruct (init_fields _ _ _ _ _ _ _ Hw) as (Ep & _ & _ & _ & Et & Ev).
  split; [exact Hc|]. split; [exact Ev|].
  split; [intros t Ht'; rewrite Et; now apply Hts|].
  exists q0, q1, q4, q5, q7, q8, q9. rewrite Ep.
  repeat split; try assumption.
  - apply Qeq_bool_iff. simpl in Zf. now apply negb_false_iff in Zf.
  - apply Qeq_bool_iff. simpl in Hz. now apply negb_false_iff in Hz.
  - intros E. apply Qeq_bool_iff in E. unfold py_inv in Hinv. cbn in Hinv.
    rewrite E in Hinv. discriminate.
Qed.

(** X14: when the trigger mode that the instrument reports is none of
    the thirteen tabulated ones, the trigger capture issues the warning
    for an untested mode and then raises [KeyError] for that mode; no
    further query is sent. *)
Theorem unknown_trigger_mode (w w1 : world Scope) (top : gmap string string)
    (m : string) :
  _fetch_settings "TRIG" trigger_settings_names w = (Ok top, w1) →
  top !! "MODE" = Some m →
  trigger_subfam_settings !! m = None →
  _fetch_trigger_settings w
  = (Raise (KeyError m),
     World (instrument w1)
       (journal w1 ++ [Warned ("Capturing state of trigger mode " ++ m
                               ++ " is untested")])%list).
Proof.
  intros Htop Hmode Hnone.
  assert (bool_decide (m ∈ ["EDGE"]) = false) as Hedge.
  { apply bool_decide_eq_false. intros Hin.
    apply list_elem_of_singleton in Hin as ->. discriminate Hnone. }
  unfold _fetch_trigger_settings, mbind at 1, scpi_bind at 1.
  rewrite Htop. unfold lift, getitem, mbind, scpi_bind.
  rewrite Hmode, Hedge, Hnone. reflexivity.
Qed.

Lemma fetch_waveforms_loop_inv channels ts (acc wfs : gmap string Waveform.obj)
    (w w' : world Scope) :
  fetch_waveforms_loop channels ts acc w = (Ok wfs, w') →
  dom wfs = dom acc ∪ list_to_set channels ∧
  ∀ c wf, wfs !! c = Some wf →
    acc !! c = Some wf ∨
    c ∈ channels ∧ constructed wf ∧ Waveform.trigger_settings wf = ts.
Proof.
  revert acc w. induction channels as [|c channels IH]; intros acc w.
  - cbn. intros [= <- _]. split; [set_solver|]. auto.
  - cbn [fetch_waveforms_loop]. intros H.
    apply bind_ok_inv in H as (wf_c & w1 & Hc & H).
    apply IH in H as [Hdom Hin]. split.
    + rewrite Hdom, dom_insert_L. set_solver.
    + intros k wf Hk. destruct (Hin k wf Hk) as [Hacc|(? & ? & ?)].
      * apply lookup_insert_Some in Hacc as [[<- <-]|[_ Hacc] ]; [|now left].
        right. apply fetch_waveform_inv in Hc
          as (? & p & ? & buf & cset & idn & ts' & _ & _ & _ & _ & Hts & Hw).
        rewrite (Hts ts eq_refl) in Hw.
        split; [left|]. split; [unfold constructed; eauto 10|].
        now destruct (init_fields _ _ _ _ _ _ _ Hw) as (_ & _ & _ & _ & -> & _).
      * right. split; [now right|]. auto.
Qed.


(** X16: a bundle that [collect] returns for a dict of channel names
    (an association list without repeated keys) has the given title,
    the given channel names and the version 1, holds a Waveform for
    exactly the named channels, and can be written and read back: its
    document deserialises to the same bundle. *)
Theorem collected_bundle {doc : Type} (codec : JsonCodec doc)
    (codec_ok : JsonCodecOk codec)
    (title : pyval) (channel_names : list (string * pyval))
    (w w' : world Scope) (b : WaveformBundle.obj) :
  NoDup (channel_names.*1) →
  WaveformBundle_collect title channel_names w = (Ok b, w') →
  WaveformBundle.title b = title ∧
  WaveformBundle.channel_names b = PyDict (list_to_map channel_names) ∧
  WaveformBundle.version b = PyInt 1 ∧
  dom (WaveformBundle.waveforms b) = list_to_set (channel_names.*1) ∧
  ∃ s : doc, WaveformBundle.to_jsons b = Ok s ∧ WaveformBundle.from_jsons s = Ok b.
Proof.
  unfold WaveformBundle_collect. intros _ H.
  apply bind_ok_inv in H as (wfs & w1 & Hwfs & H).
  injection H as <- _.
  unfold fetch_waveforms in Hwfs.
  apply bind_ok_inv in Hwfs as (ts & w0 & _ & Hwfs).
  apply fetch_waveforms_loop_inv in Hwfs as [Hdom Hin].
  cbn. repeat split; [rewrite Hdom; set_solver|].
  destruct (json_loads_dumps
              (PyDict (WaveformBundle._json_dict
                         (WaveformBundle.__init__ title
                            (PyDict (list_to_map channel_names)) wfs (PyInt 1)))))
    as (s & Hd & Hl).
  exists s. split; [exact Hd|].
  unfold WaveformBundle.from_jsons. rewrite Hl. cbn.
  apply bundle_json_dict_round_trip. cbn.
  intros k wf Hk. destruct (Hin k wf Hk) as [Hacc|(_ & ? & _)]; [|assumption].
  now rewrite lookup_empty in Hacc.
Qed.

End Acquisition.

(** The bench instrument answers a capture of [CHAN1]. *)
Lemma bench_fetch_waveform :
  ∃ wf w',
    DS4024_SCPI.fetch_waveform (builtins := decimal_builtins)
      (numerics := plain_numerics) (transport := bench_transport)
      "CHAN1" None bench_world = (Ok wf, w').
Proof. do 2 eexists. vm_compute. reflexivity. Qed.

Lemma captured_waveform_witness :
  ∃ wf w',
    DS4024_SCPI.fetch_waveform (builtins := decimal_builtins)
      (numerics := plain_numerics) (transport := bench_transport)
      "CHAN1" None bench_world = (Ok wf, w')
    ∧ Waveform.version wf = PyInt 1.
Proof.
  destruct bench_fetch_waveform as (wf & w' & H).
  exists wf, w'. split; [exact H|].
  exact (proj1 (proj2 (captured_waveform _ _ _ _ _ H))).
Defined.

Lemma ones_trigger_top :
  ∃ top w1,
    DS4024_SCPI._fetch_settings (transport := ones_transport)
      "TRIG" DS4024_SCPI.trigger_settings_names (World () []) = (Ok top, w1)
    ∧ top !! "MODE" = Some "1".
Proof. do 2 eexists. split; [vm_compute; reflexivity|reflexivity]. Qed.

Lemma unknown_trigger_mode_witness :
  ∃ w', DS4024_SCPI._fetch_trigger_settings (transport := ones_transport)
          (World () []) = (Raise (KeyError "1"), w').
Proof.
  destruct ones_trigger_top as (top & w1 & Htop & Hmode).
  eexists. exact (unknown_trigger_mode _ _ _ "1" Htop Hmode eq_refl).
Defined.



Lemma bench_collect :
  ∃ b w',
    WaveformBundle_collect (builtins := decimal_builtins)
      (numerics := plain_numerics) (transport := bench_transport)
      (PyStr "Fader at midpt") [("CHAN1", PyStr "left in")] bench_world = (Ok b, w').
Proof. do 2 eexists. vm_compute. reflexivity. Qed.

Lemma collected_bundle_witness :
  ∃ b w',
    WaveformBundle_collect (builtins := decimal_builtins)
      (numerics := plain_numerics) (transport := bench_transport)
      (PyStr "Fader at midpt") [("CHAN1", PyStr "left in")] bench_world = (Ok b, w')
    ∧ WaveformBundle.title b = PyStr "Fader at midpt"
    ∧ WaveformBundle.version b = PyInt 1.
Proof.
  destruct bench_collect as (b & w' & H).
  exists b, w'. split; [exact H|].
  destruct (collected_bundle tree_codec tree_codec_ok
              (PyStr "Fader at midpt") [("CHAN1", PyStr "left in")] _ _ _
              (NoDup_singleton "CHAN1") H)
    as (Ht & _ & Hv & _).
  split; assumption.
Defined.
